(** * DesktopTestRunner: the instance bridge of the desktop integration tests

    A shallow embedding of [TestRunner::GetInstance]
    (vnext/Desktop.IntegrationTests/DesktopTestRunner.cpp) and of the
    [TestInstanceCallback] struct declared beside it.

    [GetInstance] is straight-line code over collaborators that live in other
    translation units.  It is embedded as a computation in a small monad that
    threads the object store (fresh object identities, the shared
    [DevSettings] objects), logs every call the function makes, and lets every
    call site throw as a C++ call can. *)

From stdpp Require Import gmap strings list fin_maps.

Local Open Scope string_scope.
Local Open Scope list_scope.

(** ** Objects the function handles *)

(** A [shared_ptr<T>]: [None] is the null pointer. *)
Definition shared_ptr (T : Type) : Type := option T.

(** A [MessageQueueThread] object, named by its identity in the store. *)
Inductive MessageQueueThread : Type :=
| QueueObj (id : nat).

#[global] Instance MessageQueueThread_eq_dec : EqDecision MessageQueueThread.
Proof. solve_decision. Defined.

(** The module objects the providers of this file build.  Each constructor
    stands for the constructor call written in the source; [ExternalModule]
    stands for whatever a caller-supplied provider builds. *)
Inductive CxxModule : Type :=
| AsyncStorageModule (dbName : string)
| WebSocketModule
| NetworkingModule
| TimingModule (queue : MessageQueueThread)
| TestAppStateModule
| TestUIManager
| TestDeviceInfoModule
| ExternalModule (tag : string).

(** [CxxModule::Provider] is [std::function<unique_ptr<CxxModule>()>]. *)
Definition Provider : Type := unit -> CxxModule.

(** [tuple<string, CxxModule::Provider, shared_ptr<MessageQueueThread>>]. *)
Definition Descriptor : Type := string * Provider * MessageQueueThread.

Definition descriptor_name (d : Descriptor) : string := d.1.1.
Definition descriptor_provider (d : Descriptor) : Provider := d.1.2.
Definition descriptor_queue (d : Descriptor) : MessageQueueThread := d.2.

(** The address of a [DevSettings] object in the store; a
    [shared_ptr<DevSettings>] is such an address or null. *)
Definition SettingsPtr : Type := shared_ptr nat.

(** A [ChakraRuntimeHolder] object, as the record of the four arguments its
    constructor is called with at line 44,
    [(devSettings, jsQueue, nullptr, nullptr)].  The class is declared in
    ChakraRuntimeHolder.h, outside this unit: the record says what the holder
    was built from, and nothing of what the constructor does with it. *)
Record ChakraRuntimeHolder : Type := MkChakraRuntimeHolder {
  holder_devSettings : SettingsPtr;
  holder_jsQueue : MessageQueueThread;
  holder_arg3 : shared_ptr unit;
  holder_arg4 : shared_ptr unit
}.

(** [struct TestInstanceCallback : InstanceCallback]: no data members; an
    instance is told from another only by its identity. *)
Record TestInstanceCallback : Type := MkTestInstanceCallback {
  callback_obj : nat
}.

(** What [CreateReactInstance] returns, as the record of its arguments. *)
Record InstanceWrapper : Type := MkInstanceWrapper {
  inst_jsBundleBasePath : string;
  inst_cxxModules : list Descriptor;
  inst_arg3 : shared_ptr unit;
  inst_callback : TestInstanceCallback;
  inst_jsQueue : MessageQueueThread;
  inst_nativeQueue : MessageQueueThread;
  inst_devSettings : SettingsPtr
}.

(** [ITestInstance]; its one implementation here wraps the instance. *)
Inductive ITestInstance : Type :=
| DesktopTestInstance (instanceWrapper : InstanceWrapper).

(** The places of [GetInstance] where a call can throw. *)
Inductive CallSite : Type :=
| SiteNativeQueue
| SiteJsQueue
| SiteHolder
| SiteModuleList
| SiteEmplaceBack (i : nat)
| SitePlatformName
| SiteCallback
| SiteCreateInstance
| SiteLoadBundle
| SiteWrap.

(** How a call ends: with a value, with an exception unwinding out of it, with
    [std::terminate], or with undefined behaviour (a null pointer
    dereferenced). *)
Inductive Res (A : Type) : Type :=
| Val (a : A)
| Throw (site : CallSite)
| Terminate
| Undefined.

Arguments Val {A} a.
Arguments Throw {A} site.
Arguments Terminate {A}.
Arguments Undefined {A}.

(** What lies outside the function: which calls throw, and whether a bundle
    turns out to load once the script queue gets to it. *)
Record Env : Type := MkEnv {
  throws : CallSite -> bool;
  bundle_loads : string -> bool
}.

(** Environments of the scenarios: nothing throws and bundles load; nothing
    throws and no bundle loads; the construction of the holder throws. *)
Definition env_quiet : Env := MkEnv (fun _ => false) (fun _ => true).

Definition env_bundle_missing : Env := MkEnv (fun _ => false) (fun _ => false).

Definition env_holder_throws : Env :=
  MkEnv (fun site => match site with SiteHolder => true | _ => false end)
        (fun _ => true).

(** Extra modules of the scenarios: one module named "Custom"; two modules
    that both take the name of the built-in "Timing". *)
Definition custom_module : list (string * Provider) :=
  [("Custom", fun _ => ExternalModule "Custom")].

Definition timing_twice : list (string * Provider) :=
  [("Timing", fun _ => ExternalModule "first");
   ("Timing", fun _ => ExternalModule "second")].

Section Bridge.

(** [DevSettings] is declared in a header that is not part of this unit; the
    function touches two of its members, the others are carried as [Rest]. *)
Context {Rest : Type}.

(** [TestAppStateModule::name] and [TestDeviceInfoModule::name], constants of
    TestModule.h. *)
Variables TestAppStateModule_name TestDeviceInfoModule_name : string.

Record DevSettings : Type := MkDevSettings {
  jsiRuntimeHolder : shared_ptr ChakraRuntimeHolder;
  platformName : string;
  otherSettings : Rest
}.

(** The store: the next unused object identity and the [DevSettings] objects
    by address. *)
Record World : Type := MkWorld {
  next_obj : nat;
  heap : gmap nat DevSettings
}.

(** The calls of [GetInstance], in the order they happen.
    [EvCreateReactInstance] also records the settings as the callee finds
    them on entry; [EvLoadBundle] records how the load will end. *)
Inductive Event : Type :=
| EvMakeJSQueueThread (q : MessageQueueThread)
| EvNewChakraRuntimeHolder (h : ChakraRuntimeHolder)
| EvSetJsiRuntimeHolder (a : nat) (h : ChakraRuntimeHolder)
| EvMakeTuple (d : Descriptor)
| EvEmplaceBack (d : Descriptor)
| EvSetPlatformName (a : nat) (name : string)
| EvNewTestInstanceCallback (c : TestInstanceCallback)
| EvCreateReactInstance (i : InstanceWrapper) (seen : DevSettings)
| EvLoadBundle (i : InstanceWrapper) (bundle : string) (loads : bool)
| EvNewDesktopTestInstance (i : InstanceWrapper).

(** ** The monad: store passing, a log of events, exceptions *)

Record Run (A : Type) : Type := MkRun {
  result : Res A;
  final : World;
  events : list Event
}.

Arguments MkRun {A} result final events.
Arguments result {A} r.
Arguments final {A} r.
Arguments events {A} r.

Definition M (A : Type) : Type := World -> Run A.

Definition ret {A : Type} (a : A) : M A :=
  fun w => MkRun (Val a) w [].

Definition bind {A B : Type} (m : M A) (k : A -> M B) : M B :=
  fun w =>
    let r := m w in
    match result r with
    | Val a =>
        let r' := k a (final r) in
        MkRun (result r') (final r') (events r ++ events r')
    | Throw s => MkRun (Throw s) (final r) (events r)
    | Terminate => MkRun Terminate (final r) (events r)
    | Undefined => MkRun Undefined (final r) (events r)
    end.

Notation "x <- m ;; k" := (bind m (fun x => k))
  (at level 100, m at next level, right associativity).
Notation "m ;;; k" := (bind m (fun _ => k))
  (at level 100, right associativity).

Definition emit (e : Event) : M unit :=
  fun w => MkRun (Val tt) w [e].

Definition raise {A : Type} (s : CallSite) : M A :=
  fun w => MkRun (Throw s) w [].

Definition undefined {A : Type} : M A :=
  fun w => MkRun Undefined w [].

(** A call at site [s] throws when the environment says so. *)
Definition call (env : Env) (s : CallSite) : M unit :=
  if throws env s then raise s else ret tt.

(** A fresh object identity. *)
Definition alloc : M nat :=
  fun w => MkRun (Val (next_obj w)) (MkWorld (S (next_obj w)) (heap w)) [].

(** A [noexcept] function: an exception that reaches its boundary ends the
    process with [std::terminate]. *)
Definition noexcept {A : Type} (m : M A) : M A :=
  fun w =>
    let r := m w in
    match result r with
    | Throw _ => MkRun Terminate (final r) (events r)
    | _ => r
    end.

(** ** The collaborators *)

(** Modelled from the spec: [react::uwp::MakeJSQueueThread]
    (Threading/MessageQueueThreadFactory.h) is not in this unit.  The spec has
    two independent queue instances created per bridge invocation, each call
    of the factory giving a new queue object. *)
Definition MakeJSQueueThread (env : Env) (s : CallSite) : M MessageQueueThread :=
  call env s ;;;
  id <- alloc ;;
  emit (EvMakeJSQueueThread (QueueObj id)) ;;;
  ret (QueueObj id).

(** [std::make_shared<ChakraRuntimeHolder>(devSettings, jsQueue, nullptr, nullptr)]. *)
Definition make_shared_ChakraRuntimeHolder (env : Env)
    (devSettings : SettingsPtr) (jsQueue : MessageQueueThread)
    (a3 a4 : shared_ptr unit) : M ChakraRuntimeHolder :=
  call env SiteHolder ;;;
  let h := MkChakraRuntimeHolder devSettings jsQueue a3 a4 in
  emit (EvNewChakraRuntimeHolder h) ;;;
  ret h.

(** [devSettings->jsiRuntimeHolder = h]: a write through the pointer, which
    is undefined when the pointer is null or points at no settings. *)
Definition set_jsiRuntimeHolder (devSettings : SettingsPtr)
    (h : ChakraRuntimeHolder) : M unit :=
  fun w =>
    match devSettings with
    | Some a =>
        match heap w !! a with
        | Some s =>
            MkRun (Val tt)
              (MkWorld (next_obj w)
                 (<[a := MkDevSettings (Some h) (platformName s) (otherSettings s)]> (heap w)))
              [EvSetJsiRuntimeHolder a h]
        | None => undefined w
        end
    | None => undefined w
    end.

(** [devSettings->platformName = name]. *)
Definition set_platformName (env : Env) (devSettings : SettingsPtr)
    (name : string) : M unit :=
  call env SitePlatformName ;;;
  fun w =>
    match devSettings with
    | Some a =>
        match heap w !! a with
        | Some s =>
            MkRun (Val tt)
              (MkWorld (next_obj w)
                 (<[a := MkDevSettings (jsiRuntimeHolder s) name (otherSettings s)]> (heap w)))
              [EvSetPlatformName a name]
        | None => undefined w
        end
    | None => undefined w
    end.

(** The seven tuples of the initializer list, in the order written. *)
Definition builtin_modules (nativeQueue : MessageQueueThread) : list Descriptor :=
  [ ("AsyncLocalStorage",
     (fun _ => AsyncStorageModule "ReactNativeAsyncStorage"), nativeQueue);
    ("WebSocketModule", (fun _ => WebSocketModule), nativeQueue);
    ("Networking", (fun _ => NetworkingModule), nativeQueue);
    ("Timing", (fun _ => TimingModule nativeQueue), nativeQueue);
    (TestAppStateModule_name, (fun _ => TestAppStateModule), nativeQueue);
    ("UIManager", (fun _ => TestUIManager), nativeQueue);
    (TestDeviceInfoModule_name, (fun _ => TestDeviceInfoModule), nativeQueue) ].

Fixpoint emit_all (es : list Event) : M unit :=
  match es with
  | [] => ret tt
  | e :: es' => emit e ;;; emit_all es'
  end.

(** The braced initializer of [extraModules]: the tuples are made left to
    right, then the vector holds them. *)
Definition make_module_list (env : Env) (nativeQueue : MessageQueueThread)
    : M (list Descriptor) :=
  call env SiteModuleList ;;;
  emit_all (EvMakeTuple <$> builtin_modules nativeQueue) ;;;
  ret (builtin_modules nativeQueue).

(** [for (auto &t : cxxModules)
       extraModules.emplace_back(std::get<0>(t), std::get<1>(t), nativeQueue);]
    with [i] the number of the iteration. *)
Fixpoint emplace_loop (env : Env) (i : nat) (cxxModules : list (string * Provider))
    (nativeQueue : MessageQueueThread) (extraModules : list Descriptor)
    : M (list Descriptor) :=
  match cxxModules with
  | [] => ret extraModules
  | t :: rest =>
      let d : Descriptor := (t.1, t.2, nativeQueue) in
      call env (SiteEmplaceBack i) ;;;
      emit (EvEmplaceBack d) ;;;
      emplace_loop env (S i) rest nativeQueue (extraModules ++ [d])
  end.

(** [std::make_unique<TestInstanceCallback>()]. *)
Definition make_unique_TestInstanceCallback (env : Env) : M TestInstanceCallback :=
  call env SiteCallback ;;;
  id <- alloc ;;
  emit (EvNewTestInstanceCallback (MkTestInstanceCallback id)) ;;;
  ret (MkTestInstanceCallback id).

(** [CreateReactInstance(...)]: the instance is the record of what it was
    given; the settings reach it through the pointer, and it writes none of
    them. *)
Definition CreateReactInstance (env : Env) (jsBundleBasePath : string)
    (cxxModules : list Descriptor) (a3 : shared_ptr unit)
    (callback : TestInstanceCallback) (jsQueue nativeQueue : MessageQueueThread)
    (devSettings : SettingsPtr) : M InstanceWrapper :=
  call env SiteCreateInstance ;;;
  fun w =>
    match devSettings with
    | Some a =>
        match heap w !! a with
        | Some s =>
            let i := MkInstanceWrapper jsBundleBasePath cxxModules a3 callback
                       jsQueue nativeQueue devSettings in
            MkRun (Val i) w [EvCreateReactInstance i s]
        | None => undefined w
        end
    | None => undefined w
    end.

(** [instanceWrapper->loadBundle(std::move(jsBundleFile))] returns [void]. *)
Definition loadBundle (env : Env) (instanceWrapper : InstanceWrapper)
    (jsBundleFile : string) : M unit :=
  call env SiteLoadBundle ;;;
  emit (EvLoadBundle instanceWrapper jsBundleFile (bundle_loads env jsBundleFile)).

(** [shared_ptr<ITestInstance>(new DesktopTestInstance(std::move(instanceWrapper)))]. *)
Definition new_DesktopTestInstance (env : Env) (instanceWrapper : InstanceWrapper)
    : M (shared_ptr ITestInstance) :=
  call env SiteWrap ;;;
  emit (EvNewDesktopTestInstance instanceWrapper) ;;;
  ret (Some (DesktopTestInstance instanceWrapper)).

(** ** TestRunner::GetInstance *)

Definition GetInstance_body (env : Env) (jsBundleFile : string)
    (cxxModules : list (string * Provider)) (devSettings : SettingsPtr)
    : M (shared_ptr ITestInstance) :=
  nativeQueue <- MakeJSQueueThread env SiteNativeQueue ;;
  jsQueue <- MakeJSQueueThread env SiteJsQueue ;;
  holder <- make_shared_ChakraRuntimeHolder env devSettings jsQueue None None ;;
  set_jsiRuntimeHolder devSettings holder ;;;
  extraModules <- make_module_list env nativeQueue ;;
  extraModules <- emplace_loop env 0 cxxModules nativeQueue extraModules ;;
  set_platformName env devSettings "windesktop" ;;;
  callback <- make_unique_TestInstanceCallback env ;;
  instanceWrapper <- CreateReactInstance env "" extraModules None callback
                       jsQueue nativeQueue devSettings ;;
  loadBundle env instanceWrapper jsBundleFile ;;;
  new_DesktopTestInstance env instanceWrapper.

Definition GetInstance (env : Env) (jsBundleFile : string)
    (cxxModules : list (string * Provider)) (devSettings : SettingsPtr)
    : M (shared_ptr ITestInstance) :=
  noexcept (GetInstance_body env jsBundleFile cxxModules devSettings).

(** ** TestInstanceCallback's member functions, each with the body [{}] *)

Definition onBatchComplete (self : TestInstanceCallback) : M unit := ret tt.
Definition incrementPendingJSCalls (self : TestInstanceCallback) : M unit := ret tt.
Definition decrementPendingJSCalls (self : TestInstanceCallback) : M unit := ret tt.

(** ** What the claims speak about *)

(** No call of the run throws. *)
Definition no_throw (env : Env) : Prop := forall s, throws env s = false.

(** A caller's pair made into a descriptor on queue [q]. *)
Definition extra_descriptor (q : MessageQueueThread) (t : string * Provider)
    : Descriptor := (t.1, t.2, q).

(** The values a run that is not cut short computes from the store [w] it
    starts in. *)
Definition run_nativeQueue (w : World) : MessageQueueThread :=
  QueueObj (next_obj w).
Definition run_jsQueue (w : World) : MessageQueueThread :=
  QueueObj (S (next_obj w)).
Definition run_holder (a : nat) (w : World) : ChakraRuntimeHolder :=
  MkChakraRuntimeHolder (Some a) (run_jsQueue w) None None.
Definition run_callback (w : World) : TestInstanceCallback :=
  MkTestInstanceCallback (S (S (next_obj w))).
Definition run_table (cxxModules : list (string * Provider)) (w : World)
    : list Descriptor :=
  builtin_modules (run_nativeQueue w)
    ++ (extra_descriptor (run_nativeQueue w) <$> cxxModules).
Definition run_instance (cxxModules : list (string * Provider)) (a : nat)
    (w : World) : InstanceWrapper :=
  MkInstanceWrapper "" (run_table cxxModules w) None (run_callback w)
    (run_jsQueue w) (run_nativeQueue w) (Some a).
Definition run_settings (a : nat) (s : DevSettings) (w : World) : DevSettings :=
  MkDevSettings (Some (run_holder a w)) "windesktop" (otherSettings s).
Definition run_final (a : nat) (s : DevSettings) (w : World) : World :=
  MkWorld (S (S (S (next_obj w)))) (<[a := run_settings a s w]> (heap w)).

(** The log of such a run. *)
Definition run_events (env : Env) (jsBundleFile : string)
    (cxxModules : list (string * Provider)) (a : nat) (s : DevSettings)
    (w : World) : list Event :=
  [ EvMakeJSQueueThread (run_nativeQueue w);
    EvMakeJSQueueThread (run_jsQueue w);
    EvNewChakraRuntimeHolder (run_holder a w);
    EvSetJsiRuntimeHolder a (run_holder a w) ]
  ++ (EvMakeTuple <$> builtin_modules (run_nativeQueue w))
  ++ (EvEmplaceBack <$> (extra_descriptor (run_nativeQueue w) <$> cxxModules))
  ++ [ EvSetPlatformName a "windesktop";
       EvNewTestInstanceCallback (run_callback w);
       EvCreateReactInstance (run_instance cxxModules a w) (run_settings a s w);
       EvLoadBundle (run_instance cxxModules a w) jsBundleFile
         (bundle_loads env jsBundleFile);
       EvNewDesktopTestInstance (run_instance cxxModules a w) ].

(** Kinds of events. *)
Definition is_settings_write (e : Event) : bool :=
  match e with
  | EvSetJsiRuntimeHolder _ _ | EvSetPlatformName _ _ => true
  | _ => false
  end.

Definition is_load_bundle (e : Event) : bool :=
  match e with
  | EvLoadBundle _ _ _ => true
  | _ => false
  end.

Definition is_new_callback (e : Event) : bool :=
  match e with
  | EvNewTestInstanceCallback _ => true
  | _ => false
  end.

(** The step of the function an event belongs to, in the order of the code:
    1 the queues, 2 the holder and its injection, 3 the module table,
    4 the platform name, 5 the instance (with its callback), 6 the bundle
    load, 7 the handle. *)
Definition code_step (e : Event) : nat :=
  match e with
  | EvMakeJSQueueThread _ => 1
  | EvNewChakraRuntimeHolder _ | EvSetJsiRuntimeHolder _ _ => 2
  | EvMakeTuple _ | EvEmplaceBack _ => 3
  | EvSetPlatformName _ _ => 4
  | EvNewTestInstanceCallback _ | EvCreateReactInstance _ _ => 5
  | EvLoadBundle _ _ _ => 6
  | EvNewDesktopTestInstance _ => 7
  end.

(** The step an event belongs to in the numbering of the specification, which
    puts the platform name with the holder in step 2, and has six steps. *)
Definition spec_step (e : Event) : nat :=
  match e with
  | EvMakeJSQueueThread _ => 1
  | EvNewChakraRuntimeHolder _ | EvSetJsiRuntimeHolder _ _ => 2
  | EvSetPlatformName _ _ => 2
  | EvMakeTuple _ | EvEmplaceBack _ => 3
  | EvNewTestInstanceCallback _ | EvCreateReactInstance _ _ => 4
  | EvLoadBundle _ _ _ => 5
  | EvNewDesktopTestInstance _ => 6
  end.

(** A log is in step order when no event of a later step comes before an
    event of an earlier one. *)
Definition in_step_order (step : Event -> nat) (t : list Event) : Prop :=
  forall i j e e',
    i < j -> t !! i = Some e -> t !! j = Some e' -> step e <= step e'.

(** Modelled from the spec: the consumer of the module table (the registry
    that [CreateReactInstance] fills) is not in this unit.  The spec has
    lookups by name, and on a reused name the last write is the one a consumer
    observes: the table is read front to back, each entry written under its
    name. *)
Definition index_by_name (table : list Descriptor) : gmap string Descriptor :=
  foldl (fun m d => <[descriptor_name d := d]> m) ∅ table.

(** The names of the built-in modules, in the order of the initializer
    list. *)
Definition builtin_names : list string :=
  [ "AsyncLocalStorage"; "WebSocketModule"; "Networking"; "Timing";
    TestAppStateModule_name; "UIManager"; TestDeviceInfoModule_name ].

(** The call sites a run of [GetInstance] on [n] extra modules comes to when
    nothing stops it, in order: one [emplace_back] for each extra. *)
Definition call_sites (n : nat) : list CallSite :=
  [SiteNativeQueue; SiteJsQueue; SiteHolder; SiteModuleList]
  ++ (SiteEmplaceBack <$> seq 0 n)
  ++ [SitePlatformName; SiteCallback; SiteCreateInstance; SiteLoadBundle; SiteWrap].

(** [run_sites env r sites]: if the run [r] ends with a value, no site of
    [sites] throws; if an exception unwinds out of it, it was thrown at a
    site of [sites] that throws. *)
Definition run_sites (env : Env) {A : Type} (r : Run A) (sites : list CallSite)
    : Prop :=
  match result r with
  | Val _ => Forall (fun site => throws env site = false) sites
  | Throw site => site ∈ sites /\ throws env site = true
  | Terminate | Undefined => True
  end.

(** What a settings pointer leads to in a store: nothing when it is null or
    points at no settings object. *)
Definition settings_at (w : World) (p : SettingsPtr) : option DevSettings :=
  match p with
  | Some a => heap w !! a
  | None => None
  end.

(** [ends_in r QV QX]: the run [r] ends with a value and a store that satisfy
    [QV], or without a value (cut short by an exception, terminated,
    undefined) in a store that satisfies [QX]. *)
Definition ends_in {A : Type} (r : Run A) (QV : A -> World -> Prop)
    (QX : World -> Prop) : Prop :=
  match result r with
  | Val a => QV a (final r)
  | Throw _ | Terminate | Undefined => QX (final r)
  end.

(** The store a run of [GetInstance] on the settings [s] at [a] can leave,
    started in [w]: the settings as they were, or with the holder stored, or
    with the holder and the platform name stored. *)
Definition store_reached (a : nat) (s : DevSettings) (w w' : World) : Prop :=
  heap w' = heap w
  \/ heap w' = <[a := MkDevSettings (Some (run_holder a w)) (platformName s)
                       (otherSettings s)]> (heap w)
  \/ heap w' = <[a := run_settings a s w]> (heap w).

(** The calls of a full run before the instance is made. *)
Definition run_prelude (cxxModules : list (string * Provider)) (a : nat)
    (w : World) : list Event :=
  [ EvMakeJSQueueThread (run_nativeQueue w);
    EvMakeJSQueueThread (run_jsQueue w);
    EvNewChakraRuntimeHolder (run_holder a w);
    EvSetJsiRuntimeHolder a (run_holder a w) ]
  ++ (EvMakeTuple <$> builtin_modules (run_nativeQueue w))
  ++ (EvEmplaceBack <$> (extra_descriptor (run_nativeQueue w) <$> cxxModules))
  ++ [ EvSetPlatformName a "windesktop";
       EvNewTestInstanceCallback (run_callback w) ].

(** An event of the last three calls: the instance, the load, the handle. *)
Definition is_instance_event (e : Event) : bool :=
  match e with
  | EvCreateReactInstance _ _ | EvLoadBundle _ _ _
  | EvNewDesktopTestInstance _ => true
  | _ => false
  end.

(** The store of the scenarios: one settings object, at address 0, with no
    holder and no platform name yet; [rest] stands for its other members. *)
Definition default_settings (rest : Rest) : DevSettings :=
  MkDevSettings None "" rest.

Definition store0 (rest : Rest) : World :=
  MkWorld 0 {[ 0 := default_settings rest ]}.

(** ** Reasoning about runs *)

(** [run_spec env r full v w']: the run [r] either ends with the value [v] in
    the store [w'] having logged [full], or is cut short by an exception at a
    site where the environment throws, having logged a prefix of [full]. *)
Definition run_spec (env : Env) {A : Type} (r : Run A) (full : list Event)
    (v : A) (w' : World) : Prop :=
  match result r with
  | Val a => a = v /\ final r = w' /\ events r = full
  | Throw s => throws env s = true /\ events r `prefix_of` full
  | Terminate | Undefined => False
  end.

Lemma run_spec_ret env {A : Type} (a : A) w :
  run_spec env (ret a w) [] a w.
Proof. unfold run_spec; simpl; auto. Qed.

Lemma run_spec_bind env {A B : Type} (m : M A) (k : A -> M B) w
    full1 v1 w1 full2 v2 w2 :
  run_spec env (m w) full1 v1 w1 ->
  run_spec env (k v1 w1) full2 v2 w2 ->
  run_spec env (bind m k w) (full1 ++ full2) v2 w2.
Proof.
  unfold run_spec, bind; intros Hm Hk.
  destruct (result (m w)) as [a|s| |]; simpl; try contradiction.
  - destruct Hm as (-> & -> & ->).
    destruct (result (k v1 w1)) as [b|s| |]; simpl in *; try contradiction.
    + destruct Hk as (-> & -> & ->); auto.
    + destruct Hk as [Hs Hp]; split; [exact Hs | by apply prefix_app].
  - destruct Hm as [Hs Hp]; split; [exact Hs | by apply prefix_app_r].
Qed.

Lemma run_spec_events env {A : Type} (r : Run A) full full' v w' :
  run_spec env r full v w' -> full = full' -> run_spec env r full' v w'.
Proof. by intros H <-. Qed.

Lemma run_spec_conseq env {A : Type} (r : Run A) full full' v v' w' w'' :
  run_spec env r full v w' -> full = full' -> v = v' -> w' = w'' ->
  run_spec env r full' v' w''.
Proof. by intros H <- <- <-. Qed.

Lemma run_spec_emit env e w : run_spec env (emit e w) [e] tt w.
Proof. unfold run_spec; simpl; auto. Qed.

Lemma run_spec_call env s w : run_spec env (call env s w) [] tt w.
Proof.
  unfold run_spec, call.
  destruct (throws env s) eqn:Hs; simpl; auto using prefix_nil.
Qed.

Lemma run_spec_alloc env w :
  run_spec env (alloc w) [] (next_obj w) (MkWorld (S (next_obj w)) (heap w)).
Proof. unfold run_spec; simpl; auto. Qed.

(** One step of a sequence: the first computation by the lemma [H], the rest
    left as the next goal. *)
Ltac run_step H := eapply run_spec_bind; [apply H |].

Lemma run_spec_emit_all env es w : run_spec env (emit_all es w) es tt w.
Proof.
  induction es as [|e es IH]; cbn [emit_all].
  - apply run_spec_ret.
  - change (e :: es) with ([e] ++ es).
    run_step run_spec_emit. exact IH.
Qed.

Lemma run_spec_MakeJSQueueThread env s w :
  run_spec env (MakeJSQueueThread env s w)
    [EvMakeJSQueueThread (QueueObj (next_obj w))]
    (QueueObj (next_obj w)) (MkWorld (S (next_obj w)) (heap w)).
Proof.
  unfold MakeJSQueueThread. eapply run_spec_events.
  - run_step run_spec_call. run_step run_spec_alloc.
    run_step run_spec_emit. apply run_spec_ret.
  - reflexivity.
Qed.

Lemma run_spec_make_holder env p q a3 a4 w :
  run_spec env (make_shared_ChakraRuntimeHolder env p q a3 a4 w)
    [EvNewChakraRuntimeHolder (MkChakraRuntimeHolder p q a3 a4)]
    (MkChakraRuntimeHolder p q a3 a4) w.
Proof.
  unfold make_shared_ChakraRuntimeHolder. eapply run_spec_events.
  - run_step run_spec_call. run_step run_spec_emit. apply run_spec_ret.
  - reflexivity.
Qed.

Lemma run_spec_set_holder env a s h w :
  heap w !! a = Some s ->
  run_spec env (set_jsiRuntimeHolder (Some a) h w)
    [EvSetJsiRuntimeHolder a h] tt
    (MkWorld (next_obj w)
       (<[a := MkDevSettings (Some h) (platformName s) (otherSettings s)]> (heap w))).
Proof. intros Hs. unfold run_spec, set_jsiRuntimeHolder. rewrite Hs. simpl; auto. Qed.

Lemma run_spec_set_platformName env a s name w :
  heap w !! a = Some s ->
  run_spec env (set_platformName env (Some a) name w)
    [EvSetPlatformName a name] tt
    (MkWorld (next_obj w)
       (<[a := MkDevSettings (jsiRuntimeHolder s) name (otherSettings s)]> (heap w))).
Proof.
  intros Hs. unfold set_platformName. eapply run_spec_events.
  - run_step run_spec_call. unfold run_spec. rewrite Hs. simpl; auto.
  - reflexivity.
Qed.

Lemma run_spec_make_module_list env q w :
  run_spec env (make_module_list env q w)
    (EvMakeTuple <$> builtin_modules q) (builtin_modules q) w.
Proof.
  unfold make_module_list. eapply run_spec_events.
  - run_step run_spec_call. run_step run_spec_emit_all. apply run_spec_ret.
  - reflexivity.
Qed.

Lemma run_spec_emplace_loop env cxxModules :
  forall i q acc w,
    run_spec env (emplace_loop env i cxxModules q acc w)
      (EvEmplaceBack <$> (extra_descriptor q <$> cxxModules))
      (acc ++ (extra_descriptor q <$> cxxModules)) w.
Proof.
  induction cxxModules as [|t rest IH]; intros i q acc w;
    cbn [emplace_loop fmap list_fmap].
  - rewrite app_nil_r. apply run_spec_ret.
  - replace (acc ++ extra_descriptor q t :: (extra_descriptor q <$> rest))
      with ((acc ++ [extra_descriptor q t]) ++ (extra_descriptor q <$> rest))
      by (by rewrite <- (assoc_L (++))).
    eapply run_spec_events.
    + run_step run_spec_call. run_step run_spec_emit. apply IH.
    + reflexivity.
Qed.

Lemma run_spec_make_callback env w :
  run_spec env (make_unique_TestInstanceCallback env w)
    [EvNewTestInstanceCallback (MkTestInstanceCallback (next_obj w))]
    (MkTestInstanceCallback (next_obj w))
    (MkWorld (S (next_obj w)) (heap w)).
Proof.
  unfold make_unique_TestInstanceCallback. eapply run_spec_events.
  - run_step run_spec_call. run_step run_spec_alloc.
    run_step run_spec_emit. apply run_spec_ret.
  - reflexivity.
Qed.

Lemma run_spec_CreateReactInstance env base table a3 cb jsq nq a s w :
  heap w !! a = Some s ->
  run_spec env (CreateReactInstance env base table a3 cb jsq nq (Some a) w)
    [EvCreateReactInstance (MkInstanceWrapper base table a3 cb jsq nq (Some a)) s]
    (MkInstanceWrapper base table a3 cb jsq nq (Some a)) w.
Proof.
  intros Hs. unfold CreateReactInstance. eapply run_spec_events.
  - run_step run_spec_call. unfold run_spec. rewrite Hs. simpl; auto.
  - reflexivity.
Qed.

Lemma run_spec_loadBundle env inst bundle w :
  run_spec env (loadBundle env inst bundle w)
    [EvLoadBundle inst bundle (bundle_loads env bundle)] tt w.
Proof.
  unfold loadBundle. eapply run_spec_events.
  - run_step run_spec_call. apply run_spec_emit.
  - reflexivity.
Qed.

Lemma run_spec_new_DesktopTestInstance env inst w :
  run_spec env (new_DesktopTestInstance env inst w)
    [EvNewDesktopTestInstance inst] (Some (DesktopTestInstance inst)) w.
Proof.
  unfold new_DesktopTestInstance. eapply run_spec_events.
  - run_step run_spec_call. run_step run_spec_emit. apply run_spec_ret.
  - reflexivity.
Qed.

(** The body of [GetInstance], on settings that exist. *)
Lemma run_spec_GetInstance_body env jsBundleFile cxxModules a s w :
  heap w !! a = Some s ->
  run_spec env (GetInstance_body env jsBundleFile cxxModules (Some a) w)
    (run_events env jsBundleFile cxxModules a s w)
    (Some (DesktopTestInstance (run_instance cxxModules a w)))
    (run_final a s w).
Proof.
  intros Hs. unfold GetInstance_body. eapply run_spec_conseq.
  - run_step run_spec_MakeJSQueueThread.
    run_step run_spec_MakeJSQueueThread.
    run_step run_spec_make_holder.
    run_step run_spec_set_holder; [exact Hs |].
    run_step run_spec_make_module_list.
    run_step run_spec_emplace_loop.
    run_step run_spec_set_platformName; [apply lookup_insert_eq |].
    run_step run_spec_make_callback.
    run_step run_spec_CreateReactInstance; [apply lookup_insert_eq |].
    run_step run_spec_loadBundle.
    apply run_spec_new_DesktopTestInstance.
  - reflexivity.
  - reflexivity.
  - unfold run_final, run_settings, run_holder, run_jsQueue; cbn.
    by rewrite insert_insert_eq.
Qed.

(** [GetInstance] on settings that exist: it returns the handle of the
    instance, or ends the process at a call that throws. *)
Lemma GetInstance_cases env jsBundleFile cxxModules a s w :
  heap w !! a = Some s ->
  let r := GetInstance env jsBundleFile cxxModules (Some a) w in
  (result r = Val (Some (DesktopTestInstance (run_instance cxxModules a w)))
   /\ final r = run_final a s w
   /\ events r = run_events env jsBundleFile cxxModules a s w)
  \/ (result r = Terminate
      /\ events r `prefix_of` run_events env jsBundleFile cxxModules a s w
      /\ exists site, throws env site = true).
Proof.
  intros Hs r.
  pose proof (run_spec_GetInstance_body env jsBundleFile cxxModules a s w Hs) as H.
  subst r. unfold GetInstance, noexcept. unfold run_spec in H.
  destruct (result (GetInstance_body env jsBundleFile cxxModules (Some a) w))
    as [h|site| |] eqn:Hr; try contradiction.
  - left. rewrite Hr. destruct H as (-> & -> & ->). auto.
  - right. destruct H as [Ht Hp]. simpl. eauto.
Qed.

Lemma GetInstance_no_throw env jsBundleFile cxxModules a s w :
  no_throw env ->
  heap w !! a = Some s ->
  GetInstance env jsBundleFile cxxModules (Some a) w
  = MkRun (Val (Some (DesktopTestInstance (run_instance cxxModules a w))))
      (run_final a s w)
      (run_events env jsBundleFile cxxModules a s w).
Proof.
  intros Hnt Hs.
  destruct (GetInstance_cases env jsBundleFile cxxModules a s w Hs)
    as [(Hr & Hf & He)|(_ & _ & site & Ht)].
  - destruct (GetInstance env jsBundleFile cxxModules (Some a) w); simpl in *.
    by subst.
  - by rewrite Hnt in Ht.
Qed.

(** Step order of logs. *)
Lemma in_step_order_nil step : in_step_order step [].
Proof. intros i j e e' _ Hi. by rewrite lookup_nil in Hi. Qed.

Lemma in_step_order_app step k l1 l2 :
  in_step_order step l1 -> in_step_order step l2 ->
  Forall (fun e => step e <= k) l1 -> Forall (fun e => k <= step e) l2 ->
  in_step_order step (l1 ++ l2).
Proof.
  intros H1 H2 F1 F2 i j e e' Hij Hi Hj.
  apply lookup_app_Some in Hi as [Hi|[Hli Hi]];
    apply lookup_app_Some in Hj as [Hj|[Hlj Hj]].
  - by eapply H1.
  - rewrite Forall_lookup in F1. rewrite Forall_lookup in F2.
    specialize (F1 _ _ Hi). specialize (F2 _ _ Hj). simpl in *. lia.
  - apply lookup_lt_Some in Hj. lia.
  - eapply (H2 (i - length l1) (j - length l1)); [lia | done | done].
Qed.

Lemma in_step_order_cons step e l :
  Forall (fun e' => step e <= step e') l -> in_step_order step l ->
  in_step_order step (e :: l).
Proof.
  intros F H. change (e :: l) with ([e] ++ l).
  apply (in_step_order_app step (step e)); [| done | | done].
  - intros [|i] [|j] e1 e2 Hij H1 H2; simpl in *; try lia;
      by rewrite ?lookup_nil in *.
  - by repeat constructor.
Qed.

Lemma in_step_order_const step k l :
  Forall (fun e => step e = k) l -> in_step_order step l.
Proof.
  intros F i j e e' _ Hi Hj. rewrite Forall_lookup in F.
  by rewrite (F _ _ Hi), (F _ _ Hj).
Qed.

Lemma in_step_order_prefix step l1 l2 :
  l1 `prefix_of` l2 -> in_step_order step l2 -> in_step_order step l1.
Proof.
  intros Hp H i j e e' Hij Hi Hj.
  eapply H; [exact Hij | |]; by eapply prefix_lookup_Some.
Qed.

Lemma code_step_run_events env jsBundleFile cxxModules a s w :
  code_step <$> run_events env jsBundleFile cxxModules a s w
  = [1; 1; 2; 2] ++ replicate (7 + length cxxModules) 3 ++ [4; 5; 5; 6; 7].
Proof.
  unfold run_events. rewrite !fmap_app. f_equal.
  change (7 + length cxxModules) with (S (S (S (S (S (S (S (length cxxModules)))))))).
  cbn [replicate app fmap list_fmap builtin_modules code_step]. do 7 f_equal.
  f_equal. induction cxxModules as [|t rest IH]; [done |]. simpl. by f_equal.
Qed.

Ltac step_bounds :=
  repeat first
    [ apply Forall_app; split
    | apply Forall_fmap, Forall_true; intros ?; simpl; lia
    | apply Forall_cons; split; [simpl; lia |]
    | apply Forall_nil_2 ].

Ltac step_order_list :=
  repeat (apply in_step_order_cons; [step_bounds |]); apply in_step_order_nil.

Lemma in_step_order_run_events env jsBundleFile cxxModules a s w :
  in_step_order code_step (run_events env jsBundleFile cxxModules a s w).
Proof.
  unfold run_events.
  apply (in_step_order_app _ 2); [step_order_list | | step_bounds | step_bounds].
  apply (in_step_order_app _ 3); [| | step_bounds | step_bounds].
  - apply (in_step_order_const _ 3). step_bounds.
  - apply (in_step_order_app _ 3); [| step_order_list | step_bounds | step_bounds].
    apply (in_step_order_const _ 3). step_bounds.
Qed.

(** Reading the table by name. *)
Lemma index_by_name_foldl_other nm (post : list Descriptor) :
  forall m : gmap string Descriptor,
    nm ∉ (descriptor_name <$> post) ->
    foldl (fun m d => <[descriptor_name d := d]> m) m post !! nm = m !! nm.
Proof.
  induction post as [|d post IH]; intros m Hnm; [done |].
  rewrite fmap_cons, not_elem_of_cons in Hnm. destruct Hnm as [Hd Hpost].
  cbn [foldl]. rewrite IH by done. by rewrite lookup_insert_ne.
Qed.

Lemma index_by_name_last pre d post :
  descriptor_name d ∉ (descriptor_name <$> post) ->
  index_by_name (pre ++ d :: post) !! descriptor_name d = Some d.
Proof.
  intros Hnm. unfold index_by_name. rewrite foldl_app. cbn [foldl].
  rewrite index_by_name_foldl_other by done. apply lookup_insert_eq.
Qed.

Lemma extra_descriptor_names q (l : list (string * Provider)) :
  descriptor_name <$> (extra_descriptor q <$> l) = fst <$> l.
Proof. induction l as [|t l IH]; [done |]. cbn. by f_equal. Qed.

Lemma extra_descriptor_queues q (l : list (string * Provider)) :
  Forall (fun d => descriptor_queue d = q) (extra_descriptor q <$> l).
Proof. by apply Forall_fmap, Forall_true. Qed.

Lemma builtin_modules_queues q :
  Forall (fun d => descriptor_queue d = q) (builtin_modules q).
Proof. by repeat constructor. Qed.

Lemma run_table_queues cxxModules w :
  Forall (fun d => descriptor_queue d = run_nativeQueue w) (run_table cxxModules w).
Proof.
  apply Forall_app; split;
    [apply builtin_modules_queues | apply extra_descriptor_queues].
Qed.

Lemma run_table_length cxxModules w :
  length (run_table cxxModules w) = 7 + length cxxModules.
Proof. unfold run_table. by rewrite length_app, length_fmap. Qed.

Lemma run_queues_differ w : run_jsQueue w <> run_nativeQueue w.
Proof. unfold run_jsQueue, run_nativeQueue. intros [=]. lia. Qed.

Lemma env_quiet_no_throw : no_throw env_quiet.
Proof. intros site. reflexivity. Defined.

Lemma env_bundle_missing_no_throw : no_throw env_bundle_missing.
Proof. intros site. reflexivity. Defined.

Lemma store0_settings rest : heap (store0 rest) !! 0 = Some (default_settings rest).
Proof. apply lookup_singleton_eq. Defined.

(** ** The claims *)

(** C1: for every list of extra modules (so for every non-empty one), when
    [GetInstance] runs to its end on settings that exist, the module table it
    hands to [CreateReactInstance] has exactly 7 + n entries: first the seven
    built-in descriptors, in the order AsyncLocalStorage, WebSocketModule,
    Networking, Timing, app-state, UIManager, device-info, each as the
    initializer list made it (so on the queue it was given there, the native
    queue), then the n extra descriptors in their input order, each bound to
    the native queue, the same queue the built-ins are on. *)
Theorem C1_table_builtins_then_extras env jsBundleFile cxxModules a s w :
  no_throw env ->
  heap w !! a = Some s ->
  let r := GetInstance env jsBundleFile cxxModules (Some a) w in
  exists inst nativeQueue,
    result r = Val (Some (DesktopTestInstance inst))
    /\ inst_nativeQueue inst = nativeQueue
    /\ length (inst_cxxModules inst) = 7 + length cxxModules
    /\ inst_cxxModules inst
       = builtin_modules nativeQueue
           ++ ((fun t => (t.1, t.2, nativeQueue)) <$> cxxModules)
    /\ descriptor_name <$> inst_cxxModules inst
       = builtin_names ++ (fst <$> cxxModules)
    /\ Forall (fun d => EvMakeTuple d ∈ events r) (take 7 (inst_cxxModules inst))
    /\ Forall (fun d => descriptor_queue d = nativeQueue) (inst_cxxModules inst).
Proof.
  intros Hnt Hs r. subst r. rewrite (GetInstance_no_throw _ _ _ _ _ _ Hnt Hs).
  exists (run_instance cxxModules a w), (run_nativeQueue w). cbn [result events].
  split; [done |]. split; [done |].
  split; [apply run_table_length |]. split; [done |].
  split; [| split].
  - cbn [run_instance inst_cxxModules]. unfold run_table.
    by rewrite fmap_app, extra_descriptor_names.
  - cbn [run_instance inst_cxxModules]. unfold run_table.
    rewrite take_app_length' by done.
    apply Forall_forall. intros d Hd. unfold run_events.
    apply elem_of_app; right. apply elem_of_app; left.
    by apply list_elem_of_fmap_2.
  - apply run_table_queues.
Qed.

(** C3: for an empty list of extra modules, the module table [GetInstance]
    hands to [CreateReactInstance] is exactly the built-in set in its order:
    seven entries (storage, websocket, networking, timing, app-state,
    UI-manager, device-info) and nothing else. *)
Theorem C3_empty_extras_builtins_only env jsBundleFile a s w :
  no_throw env ->
  heap w !! a = Some s ->
  exists inst,
    result (GetInstance env jsBundleFile [] (Some a) w)
    = Val (Some (DesktopTestInstance inst))
    /\ inst_cxxModules inst = builtin_modules (inst_nativeQueue inst)
    /\ length (inst_cxxModules inst) = 7
    /\ descriptor_name <$> inst_cxxModules inst = builtin_names.
Proof.
  intros Hnt Hs. rewrite (GetInstance_no_throw _ _ _ _ _ _ Hnt Hs).
  exists (run_instance [] a w). cbn [result run_instance inst_cxxModules inst_nativeQueue].
  unfold run_table. cbn [fmap list_fmap]. rewrite app_nil_r. done.
Qed.

(** Which call sites a run has passed. *)
Lemma run_sites_bind env {A B : Type} (m : M A) (k : A -> M B) w l1 l2 :
  run_sites env (m w) l1 ->
  (forall a w1, run_sites env (k a w1) l2) ->
  run_sites env (bind m k w) (l1 ++ l2).
Proof.
  unfold run_sites, bind. intros Hm Hk.
  destruct (result (m w)) as [a|site| |]; simpl; [| | done ..].
  - specialize (Hk a (final (m w))).
    destruct (result (k a (final (m w)))) as [b|site| |]; simpl; [| | done ..].
    + by apply Forall_app.
    + destruct Hk as [Hin Ht]. split; [| done]. apply elem_of_app. by right.
  - destruct Hm as [Hin Ht]. split; [| done]. apply elem_of_app. by left.
Qed.

Lemma run_sites_call env site w : run_sites env (call env site w) [site].
Proof.
  unfold run_sites, call. destruct (throws env site) eqn:Ht; simpl.
  - split; [set_solver | done].
  - by repeat constructor.
Qed.

Lemma run_sites_quiet env {A : Type} (r : Run A) :
  (forall site, result r <> Throw site) -> run_sites env r [].
Proof.
  unfold run_sites. intros H.
  destruct (result r) as [a|site| |]; [constructor | by destruct (H site) | done ..].
Qed.

(** A call at [site] followed by a step that does not throw. *)
Lemma run_sites_call_then env {A : Type} site (m : M A) w :
  (forall w1 site', result (m w1) <> Throw site') ->
  run_sites env (bind (call env site) (fun _ => m) w) [site].
Proof.
  intros H. rewrite <- (app_nil_r [site]).
  apply run_sites_bind; [apply run_sites_call |].
  intros _ w1. apply run_sites_quiet, H.
Qed.

Lemma run_sites_MakeJSQueueThread env site w :
  run_sites env (MakeJSQueueThread env site w) [site].
Proof. unfold MakeJSQueueThread. by apply run_sites_call_then. Qed.

Lemma run_sites_make_holder env p q a3 a4 w :
  run_sites env (make_shared_ChakraRuntimeHolder env p q a3 a4 w) [SiteHolder].
Proof. unfold make_shared_ChakraRuntimeHolder. by apply run_sites_call_then. Qed.

Lemma run_sites_set_holder env p h w :
  run_sites env (set_jsiRuntimeHolder p h w) [].
Proof.
  apply run_sites_quiet. intros site. unfold set_jsiRuntimeHolder.
  destruct p as [a|]; [destruct (heap w !! a) |]; done.
Qed.

Lemma run_sites_set_platformName env p name w :
  run_sites env (set_platformName env p name w) [SitePlatformName].
Proof.
  unfold set_platformName. apply run_sites_call_then. intros w1 site.
  destruct p as [a|]; [destruct (heap w1 !! a) |]; done.
Qed.

Lemma bind_no_throw {A B : Type} (m : M A) (k : A -> M B) w site :
  (forall site', result (m w) <> Throw site') ->
  (forall a w1, result (k a w1) <> Throw site) ->
  result (bind m k w) <> Throw site.
Proof.
  unfold bind. intros Hm Hk.
  destruct (result (m w)) as [a|site'| |] eqn:E; simpl;
    [apply Hk | by destruct (Hm site') | done ..].
Qed.

Lemma emit_all_no_throw es w site : result (emit_all es w) <> Throw site.
Proof.
  revert w. induction es as [|e es IH]; intros w; [done |].
  cbn [emit_all]. apply bind_no_throw; [done | intros _ w1; apply IH].
Qed.

Lemma run_sites_make_module_list env q w :
  run_sites env (make_module_list env q w) [SiteModuleList].
Proof.
  unfold make_module_list. apply run_sites_call_then. intros w1 site.
  apply bind_no_throw; [intros site'; apply emit_all_no_throw | done].
Qed.

Lemma run_sites_emplace_loop env cxxModules :
  forall i q acc w,
    run_sites env (emplace_loop env i cxxModules q acc w)
      (SiteEmplaceBack <$> seq i (length cxxModules)).
Proof.
  induction cxxModules as [|t rest IH]; intros i q acc w;
    cbn [emplace_loop length seq fmap list_fmap].
  - by apply run_sites_quiet.
  - change (SiteEmplaceBack i :: (SiteEmplaceBack <$> seq (S i) (length rest)))
      with ([SiteEmplaceBack i] ++ [] ++ (SiteEmplaceBack <$> seq (S i) (length rest))).
    apply run_sites_bind; [apply run_sites_call |]. intros _ w1.
    apply run_sites_bind; [by apply run_sites_quiet |]. intros _ w2.
    apply IH.
Qed.

Lemma run_sites_make_callback env w :
  run_sites env (make_unique_TestInstanceCallback env w) [SiteCallback].
Proof. unfold make_unique_TestInstanceCallback. by apply run_sites_call_then. Qed.

Lemma run_sites_CreateReactInstance env base table a3 cb jsq nq p w :
  run_sites env (CreateReactInstance env base table a3 cb jsq nq p w)
    [SiteCreateInstance].
Proof.
  unfold CreateReactInstance. apply run_sites_call_then. intros w1 site.
  destruct p as [a|]; [destruct (heap w1 !! a) |]; done.
Qed.

Lemma run_sites_loadBundle env inst bundle w :
  run_sites env (loadBundle env inst bundle w) [SiteLoadBundle].
Proof. unfold loadBundle. by apply run_sites_call_then. Qed.

Lemma run_sites_new_DesktopTestInstance env inst w :
  run_sites env (new_DesktopTestInstance env inst w) [SiteWrap].
Proof. unfold new_DesktopTestInstance. by apply run_sites_call_then. Qed.

Lemma run_sites_GetInstance_body env jsBundleFile cxxModules p w :
  run_sites env (GetInstance_body env jsBundleFile cxxModules p w)
    (call_sites (length cxxModules)).
Proof.
  unfold GetInstance_body, call_sites.
  change [SiteNativeQueue; SiteJsQueue; SiteHolder; SiteModuleList]
    with ([SiteNativeQueue] ++ [SiteJsQueue] ++ [SiteHolder] ++ []
            ++ [SiteModuleList]).
  change [SitePlatformName; SiteCallback; SiteCreateInstance; SiteLoadBundle; SiteWrap]
    with ([SitePlatformName] ++ [SiteCallback] ++ [SiteCreateInstance]
            ++ [SiteLoadBundle] ++ [SiteWrap]).
  rewrite <- !(assoc_L (++)).
  apply run_sites_bind; [apply run_sites_MakeJSQueueThread |]. intros nq w1.
  apply run_sites_bind; [apply run_sites_MakeJSQueueThread |]. intros jq w2.
  apply run_sites_bind; [apply run_sites_make_holder |]. intros h w3.
  apply run_sites_bind; [apply run_sites_set_holder |]. intros _ w4.
  apply run_sites_bind; [apply run_sites_make_module_list |]. intros l w5.
  apply run_sites_bind; [apply run_sites_emplace_loop |]. intros l' w6.
  apply run_sites_bind; [apply run_sites_set_platformName |]. intros _ w7.
  apply run_sites_bind; [apply run_sites_make_callback |]. intros cb w8.
  apply run_sites_bind; [apply run_sites_CreateReactInstance |]. intros inst w9.
  apply run_sites_bind; [apply run_sites_loadBundle |]. intros _ w10.
  apply run_sites_new_DesktopTestInstance.
Qed.

(** [GetInstance] ends the process exactly when a call it comes to throws. *)
Lemma GetInstance_terminates_iff env jsBundleFile cxxModules a s w :
  heap w !! a = Some s ->
  result (GetInstance env jsBundleFile cxxModules (Some a) w) = Terminate
  <-> exists site, site ∈ call_sites (length cxxModules)
                   /\ throws env site = true.
Proof.
  intros Hs.
  pose proof (run_spec_GetInstance_body env jsBundleFile cxxModules a s w Hs) as Hrun.
  pose proof (run_sites_GetInstance_body env jsBundleFile cxxModules (Some a) w) as Hsites.
  unfold GetInstance, noexcept. unfold run_spec in Hrun. unfold run_sites in Hsites.
  destruct (result (GetInstance_body env jsBundleFile cxxModules (Some a) w))
    as [h|site| |] eqn:Hr; simpl; rewrite ?Hr; try contradiction.
  - split; [done |]. intros (site & Hin & Ht).
    rewrite Forall_forall in Hsites. by rewrite (Hsites _ Hin) in Ht.
  - split; [| done]. intros _. by exists site.
Qed.

(** C2, as the code has it: on settings that exist, no exception ever unwinds
    out of [GetInstance] (it is [noexcept]).  The call ends in one of two
    ways: it returns a non-null handle, or a call inside it throws and the
    process is ended by [std::terminate], nothing being returned.  It returns
    whenever no call inside it throws, and a handle it returns is never
    null.  Which way it ends is decided by the calls it comes to
    ([call_sites]): when one of them throws the process is terminated and
    there is no handle, and when none of them throws the handle is
    returned. *)
Theorem C2_returns_handle_or_terminates env jsBundleFile cxxModules a s w :
  heap w !! a = Some s ->
  let r := GetInstance env jsBundleFile cxxModules (Some a) w in
  (forall site, result r <> Throw site)
  /\ ((exists inst, result r = Val (Some (DesktopTestInstance inst)))
      \/ (result r = Terminate /\ exists site, throws env site = true))
  /\ (no_throw env ->
      exists inst, result r = Val (Some (DesktopTestInstance inst)))
  /\ (forall h, result r = Val h -> h <> None)
  /\ (result r = Terminate
      <-> exists site, site ∈ call_sites (length cxxModules)
                       /\ throws env site = true)
  /\ ((exists inst, result r = Val (Some (DesktopTestInstance inst)))
      <-> forall site, site ∈ call_sites (length cxxModules) ->
                       throws env site = false).
Proof.
  intros Hs r.
  pose proof (GetInstance_terminates_iff env jsBundleFile cxxModules a s w Hs)
    as Hiff.
  fold r in Hiff.
  destruct (GetInstance_cases env jsBundleFile cxxModules a s w Hs)
    as [(Hr & _ & _)|(Hr & _ & site & Ht)]; fold r in Hr; rewrite Hr in *.
  - split; [done |]. split; [eauto |]. split; [eauto |].
    split; [by intros h [= <-] |]. split; [exact Hiff |].
    split; [| eauto]. intros _ site Hin.
    destruct (throws env site) eqn:Ht; [| done].
    assert (Habs : Val (Some (DesktopTestInstance (run_instance cxxModules a w)))
                   = @Terminate (shared_ptr ITestInstance))
      by (apply Hiff; eauto).
    discriminate Habs.
  - split; [done |]. split; [eauto |]. split; [by intros Hnt; rewrite Hnt in Ht |].
    split; [done |]. split; [exact Hiff |].
    split; [by intros [inst Hv] |]. intros Hall.
    destruct (proj1 Hiff eq_refl) as (site' & Hin & Ht').
    by rewrite (Hall _ Hin) in Ht'.
Qed.

(** C4, as the code has it: the calls of [GetInstance] happen in the order
    of [code_step]: both queues are made before the holder and before any
    module descriptor; the holder is then made and stored into the settings,
    before the module table is built; the platform name is stored into the
    settings after the table is built and before the instance is made; the
    instance is made after the table; [loadBundle] is called after the
    instance is made; the handle is made last.  This holds of every run, cut
    short or not; a run in which no call throws goes through every step. *)
Theorem C4_calls_in_code_order env jsBundleFile cxxModules a s w :
  heap w !! a = Some s ->
  let r := GetInstance env jsBundleFile cxxModules (Some a) w in
  in_step_order code_step (events r)
  /\ (no_throw env ->
      code_step <$> events r
      = [1; 1; 2; 2] ++ replicate (7 + length cxxModules) 3 ++ [4; 5; 5; 6; 7]).
Proof.
  intros Hs r. split.
  - destruct (GetInstance_cases env jsBundleFile cxxModules a s w Hs)
      as [(_ & _ & He)|(_ & Hp & _)]; fold r in He || fold r in Hp.
    + rewrite He. apply in_step_order_run_events.
    + eapply in_step_order_prefix; [exact Hp | apply in_step_order_run_events].
  - intros Hnt. subst r. rewrite (GetInstance_no_throw _ _ _ _ _ _ Hnt Hs).
    apply code_step_run_events.
Qed.

Lemma filter_writes_fmap {X : Type} (f : X -> Event) (l : list X) :
  (forall x, is_settings_write (f x) = false) ->
  filter (fun e => is_settings_write e = true) (f <$> l) = [].
Proof.
  intros Hf. induction l as [|x l IH]; [done |].
  rewrite fmap_cons, filter_cons_False; [done | by rewrite Hf].
Qed.

Lemma filter_new_callback_fmap {X : Type} (f : X -> Event) (l : list X) :
  (forall x, is_new_callback (f x) = false) ->
  filter (fun e => is_new_callback e = true) (f <$> l) = [].
Proof.
  intros Hf. induction l as [|x l IH]; [done |].
  rewrite fmap_cons, filter_cons_False; [done | by rewrite Hf].
Qed.

Lemma filter_prefix {X : Type} (P : X -> Prop) `{!forall x, Decision (P x)}
    (l1 l2 : list X) :
  l1 `prefix_of` l2 -> filter P l1 `prefix_of` filter P l2.
Proof. intros [k ->]. rewrite filter_app. by apply prefix_app_r. Qed.

Lemma filter_writes_run_events env jsBundleFile cxxModules a s w :
  filter (fun e => is_settings_write e = true)
    (run_events env jsBundleFile cxxModules a s w)
  = [EvSetJsiRuntimeHolder a (run_holder a w); EvSetPlatformName a "windesktop"].
Proof.
  unfold run_events. by rewrite !filter_app, !filter_writes_fmap by done.
Qed.

(** C5: in every run of [GetInstance], cut short or not, the only writes to
    the settings are the store of the holder just built into
    [jsiRuntimeHolder] and then the store of "windesktop" into
    [platformName].  In a run to the end both happen before the settings are
    handed to [CreateReactInstance]: at that moment the settings object holds
    the new holder, the name "windesktop" and every other member as the
    caller gave it; nothing is written after it, so at the return the object
    is still that, and no other settings object of the store has changed. *)
Theorem C5_settings_written_twice_then_moved env jsBundleFile cxxModules a s w :
  heap w !! a = Some s ->
  let r := GetInstance env jsBundleFile cxxModules (Some a) w in
  exists holder,
    filter (fun e => is_settings_write e = true) (events r)
      `prefix_of` [EvSetJsiRuntimeHolder a holder; EvSetPlatformName a "windesktop"]
    /\ (no_throw env ->
        exists inst seen pre post,
          events r = pre ++ EvCreateReactInstance inst seen :: post
          /\ filter (fun e => is_settings_write e = true) pre
             = [EvSetJsiRuntimeHolder a holder; EvSetPlatformName a "windesktop"]
          /\ filter (fun e => is_settings_write e = true) post = []
          /\ EvNewChakraRuntimeHolder holder ∈ pre
          /\ inst_devSettings inst = Some a
          /\ seen = MkDevSettings (Some holder) "windesktop" (otherSettings s)
          /\ heap (final r) = <[a := seen]> (heap w)).
Proof.
  intros Hs r. exists (run_holder a w). split.
  - rewrite <- (filter_writes_run_events env jsBundleFile cxxModules a s w).
    destruct (GetInstance_cases env jsBundleFile cxxModules a s w Hs)
      as [(_ & _ & He)|(_ & Hp & _)]; fold r in He || fold r in Hp.
    + by rewrite He.
    + by apply filter_prefix.
  - intros Hnt. subst r. rewrite (GetInstance_no_throw _ _ _ _ _ _ Hnt Hs).
    cbn [events final].
    exists (run_instance cxxModules a w), (run_settings a s w).
    exists ([ EvMakeJSQueueThread (run_nativeQueue w);
              EvMakeJSQueueThread (run_jsQueue w);
              EvNewChakraRuntimeHolder (run_holder a w);
              EvSetJsiRuntimeHolder a (run_holder a w) ]
            ++ (EvMakeTuple <$> builtin_modules (run_nativeQueue w))
            ++ (EvEmplaceBack <$> (extra_descriptor (run_nativeQueue w) <$> cxxModules))
            ++ [ EvSetPlatformName a "windesktop";
                 EvNewTestInstanceCallback (run_callback w) ]).
    exists [ EvLoadBundle (run_instance cxxModules a w) jsBundleFile
               (bundle_loads env jsBundleFile);
             EvNewDesktopTestInstance (run_instance cxxModules a w) ].
    split; [| split; [| split; [| split; [| split; [| split]]]]]; try done.
    + unfold run_events. by rewrite <- !(assoc_L (++)).
    + rewrite !filter_app, !filter_writes_fmap by done. done.
    + apply elem_of_app; left. set_solver.
Qed.

(** C6: when an extra module reuses the name of a built-in, the table build
    appends it after the built-ins and rejects or removes nothing: the table
    is the built-ins followed by all the extras, so the built-in entry of
    that name is still among the first seven, and the last extra of that name
    is the last entry of the table that carries it.  A consumer that reads
    the table by name ([index_by_name]) finds that extra. *)
Theorem C6_reused_name_last_entry_wins env jsBundleFile l1 nm p l2 a s w :
  nm ∈ builtin_names ->
  nm ∉ (fst <$> l2) ->
  no_throw env ->
  heap w !! a = Some s ->
  let cxxModules := l1 ++ (nm, p) :: l2 in
  let r := GetInstance env jsBundleFile cxxModules (Some a) w in
  exists inst,
    result r = Val (Some (DesktopTestInstance inst))
    /\ inst_cxxModules inst
       = builtin_modules (inst_nativeQueue inst)
           ++ ((fun t => (t.1, t.2, inst_nativeQueue inst)) <$> cxxModules)
    /\ (exists i d, i < 7 /\ inst_cxxModules inst !! i = Some d
                    /\ descriptor_name d = nm)
    /\ inst_cxxModules inst !! (7 + length l1) = Some (nm, p, inst_nativeQueue inst)
    /\ (forall j d, 7 + length l1 < j -> inst_cxxModules inst !! j = Some d ->
                    descriptor_name d <> nm)
    /\ index_by_name (inst_cxxModules inst) !! nm
       = Some (nm, p, inst_nativeQueue inst).
Proof.
  intros Hin Hout Hnt Hs cxxModules r. subst r.
  rewrite (GetInstance_no_throw _ _ _ _ _ _ Hnt Hs).
  exists (run_instance cxxModules a w).
  cbn [result run_instance inst_cxxModules inst_nativeQueue].
  set (q := run_nativeQueue w).
  assert (Htab : run_table cxxModules w
                 = (builtin_modules q ++ (extra_descriptor q <$> l1))
                     ++ extra_descriptor q (nm, p) :: (extra_descriptor q <$> l2)).
  { unfold run_table, cxxModules. fold q.
    by rewrite fmap_app, fmap_cons, (assoc_L (++)). }
  assert (Hlen : length (builtin_modules q ++ (extra_descriptor q <$> l1))
                 = 7 + length l1).
  { by rewrite length_app, length_fmap. }
  split; [done |]. split; [done |]. split; [| split; [| split]].
  - apply list_elem_of_lookup in Hin as [i Hi].
    assert (Hi7 : i < 7) by (apply lookup_lt_Some in Hi; exact Hi).
    assert (Hd : (descriptor_name <$> builtin_modules q) !! i = Some nm) by exact Hi.
    rewrite list_lookup_fmap in Hd.
    destruct (builtin_modules q !! i) as [d|] eqn:Hbi; [| done].
    exists i, d. split; [done |]. split; [| by injection Hd].
    unfold run_table. fold q. by apply lookup_app_l_Some.
  - rewrite Htab, <- Hlen. by rewrite list_lookup_middle.
  - intros j d Hj Hd Hnm. rewrite Htab in Hd.
    apply lookup_app_Some in Hd as [Hd|[_ Hd]].
    { apply lookup_lt_Some in Hd. lia. }
    rewrite Hlen in Hd.
    destruct (j - (7 + length l1)) as [|k] eqn:Hk; [lia |].
    cbn in Hd. apply Hout. rewrite <- Hnm, <- (extra_descriptor_names q).
    apply list_elem_of_fmap_2. by eapply list_elem_of_lookup_2.
  - rewrite Htab.
    apply (index_by_name_last _ (extra_descriptor q (nm, p))).
    cbn. by rewrite extra_descriptor_names.
Qed.

(** C7: a run of [GetInstance] to its end calls [loadBundle] exactly once,
    on the instance just made and with exactly the caller's bundle name,
    right after [CreateReactInstance] and right before the handle is made.
    The bundle name is looked at by no other call, and whether the bundle
    later loads has no part in what is returned: any run on the same modules,
    settings and store that returns, whatever its bundle and however its load
    ends, returns the same handle. *)
Theorem C7_loadBundle_once_fire_and_forget env jsBundleFile cxxModules a s w :
  no_throw env ->
  heap w !! a = Some s ->
  let r := GetInstance env jsBundleFile cxxModules (Some a) w in
  exists inst seen pre,
    result r = Val (Some (DesktopTestInstance inst))
    /\ events r
       = pre ++ [ EvCreateReactInstance inst seen;
                  EvLoadBundle inst jsBundleFile (bundle_loads env jsBundleFile);
                  EvNewDesktopTestInstance inst ]
    /\ Forall (fun e => is_load_bundle e = false) pre
    /\ (forall env' jsBundleFile' h,
          result (GetInstance env' jsBundleFile' cxxModules (Some a) w) = Val h ->
          h = Some (DesktopTestInstance inst)).
Proof.
  intros Hnt Hs r. subst r. rewrite (GetInstance_no_throw _ _ _ _ _ _ Hnt Hs).
  cbn [result events].
  exists (run_instance cxxModules a w), (run_settings a s w).
  exists ([ EvMakeJSQueueThread (run_nativeQueue w);
            EvMakeJSQueueThread (run_jsQueue w);
            EvNewChakraRuntimeHolder (run_holder a w);
            EvSetJsiRuntimeHolder a (run_holder a w) ]
          ++ (EvMakeTuple <$> builtin_modules (run_nativeQueue w))
          ++ (EvEmplaceBack <$> (extra_descriptor (run_nativeQueue w) <$> cxxModules))
          ++ [ EvSetPlatformName a "windesktop";
               EvNewTestInstanceCallback (run_callback w) ]).
  split; [done |]. split; [| split].
  - unfold run_events. by rewrite <- !(assoc_L (++)).
  - repeat first
      [ apply Forall_app; split
      | by apply Forall_fmap, Forall_true
      | by repeat constructor ].
  - intros env' jsBundleFile' h Hh.
    destruct (GetInstance_cases env' jsBundleFile' cxxModules a s w Hs)
      as [(Hr & _ & _)|(Hr & _ & _)]; rewrite Hr in Hh;
      [by injection Hh | discriminate].
Qed.

(** C8: the runtime holder is built on the script queue, the second queue
    the factory made, which is not the native queue (the first), and with the
    pointer to the caller's settings; it is stored into those settings at
    once, before [CreateReactInstance] is called on them, and
    [CreateReactInstance] finds it there. *)
Theorem C8_holder_on_script_queue env jsBundleFile cxxModules a s w :
  no_throw env ->
  heap w !! a = Some s ->
  let r := GetInstance env jsBundleFile cxxModules (Some a) w in
  exists nativeQueue jsQueue holder inst seen mid post,
    result r = Val (Some (DesktopTestInstance inst))
    /\ events r
       = [ EvMakeJSQueueThread nativeQueue;
           EvMakeJSQueueThread jsQueue;
           EvNewChakraRuntimeHolder holder;
           EvSetJsiRuntimeHolder a holder ]
         ++ mid ++ EvCreateReactInstance inst seen :: post
    /\ holder_jsQueue holder = jsQueue
    /\ jsQueue <> nativeQueue
    /\ holder_devSettings holder = Some a
    /\ inst_jsQueue inst = jsQueue
    /\ inst_nativeQueue inst = nativeQueue
    /\ inst_devSettings inst = Some a
    /\ jsiRuntimeHolder seen = Some holder.
Proof.
  intros Hnt Hs r. subst r. rewrite (GetInstance_no_throw _ _ _ _ _ _ Hnt Hs).
  cbn [result events].
  exists (run_nativeQueue w), (run_jsQueue w), (run_holder a w).
  exists (run_instance cxxModules a w), (run_settings a s w).
  exists ((EvMakeTuple <$> builtin_modules (run_nativeQueue w))
          ++ (EvEmplaceBack <$> (extra_descriptor (run_nativeQueue w) <$> cxxModules))
          ++ [ EvSetPlatformName a "windesktop";
               EvNewTestInstanceCallback (run_callback w) ]).
  exists [ EvLoadBundle (run_instance cxxModules a w) jsBundleFile
             (bundle_loads env jsBundleFile);
           EvNewDesktopTestInstance (run_instance cxxModules a w) ].
  split; [done |]. split.
  - unfold run_events. by rewrite <- !(assoc_L (++)).
  - repeat split; try done. apply run_queues_differ.
Qed.

(** C9: a run of [GetInstance] to its end makes one new
    [TestInstanceCallback], an object that did not exist before the call and
    that no later call makes again, and passes it to [CreateReactInstance].
    The three member functions of a [TestInstanceCallback] do nothing: each
    returns, leaves the store as it was and logs no call. *)
Theorem C9_fresh_callback_does_nothing env jsBundleFile cxxModules a s w :
  no_throw env ->
  heap w !! a = Some s ->
  let r := GetInstance env jsBundleFile cxxModules (Some a) w in
  exists inst seen,
    result r = Val (Some (DesktopTestInstance inst))
    /\ filter (fun e => is_new_callback e = true) (events r)
       = [EvNewTestInstanceCallback (inst_callback inst)]
    /\ EvCreateReactInstance inst seen ∈ events r
    /\ next_obj w <= callback_obj (inst_callback inst) < next_obj (final r)
    /\ (forall env' jsBundleFile' cxxModules' inst',
          result (GetInstance env' jsBundleFile' cxxModules' (Some a) (final r))
          = Val (Some (DesktopTestInstance inst')) ->
          inst_callback inst' <> inst_callback inst)
    /\ (forall (c : TestInstanceCallback) (w0 : World),
          onBatchComplete c w0 = MkRun (Val tt) w0 []
          /\ incrementPendingJSCalls c w0 = MkRun (Val tt) w0 []
          /\ decrementPendingJSCalls c w0 = MkRun (Val tt) w0 []).
Proof.
  intros Hnt Hs r. subst r. rewrite (GetInstance_no_throw _ _ _ _ _ _ Hnt Hs).
  cbn [result events final].
  exists (run_instance cxxModules a w), (run_settings a s w).
  split; [done |]. split; [| split; [| split; [| split]]].
  - unfold run_events.
    rewrite !filter_app, !filter_new_callback_fmap by done. done.
  - unfold run_events. rewrite !elem_of_app. do 3 right. set_solver.
  - cbn. lia.
  - intros env' jsBundleFile' cxxModules' inst' Hr.
    assert (Hs' : heap (run_final a s w) !! a = Some (run_settings a s w))
      by apply lookup_insert_eq.
    destruct (GetInstance_cases env' jsBundleFile' cxxModules' a _ _ Hs')
      as [(Hr' & _ & _)|(Hr' & _ & _)]; rewrite Hr' in Hr;
      [| discriminate].
    injection Hr as <-. cbn. intros [=]. lia.
  - done.
Qed.

(** C10: the native queue and the script queue are two different queue
    objects, the first and the second the factory [MakeJSQueueThread] made.
    Every descriptor of the module table, built-in or extra, is bound to the
    native queue and none to the script queue; the runtime holder is bound
    to the script queue. *)
Theorem C10_modules_native_holder_script env jsBundleFile cxxModules a s w :
  no_throw env ->
  heap w !! a = Some s ->
  let r := GetInstance env jsBundleFile cxxModules (Some a) w in
  exists nativeQueue jsQueue holder inst rest,
    result r = Val (Some (DesktopTestInstance inst))
    /\ events r
       = EvMakeJSQueueThread nativeQueue :: EvMakeJSQueueThread jsQueue
           :: EvNewChakraRuntimeHolder holder :: rest
    /\ nativeQueue <> jsQueue
    /\ inst_nativeQueue inst = nativeQueue
    /\ inst_jsQueue inst = jsQueue
    /\ length (inst_cxxModules inst) = 7 + length cxxModules
    /\ Forall (fun d => descriptor_queue d = nativeQueue
                        /\ descriptor_queue d <> jsQueue)
         (inst_cxxModules inst)
    /\ holder_jsQueue holder = jsQueue.
Proof.
  intros Hnt Hs r. subst r. rewrite (GetInstance_no_throw _ _ _ _ _ _ Hnt Hs).
  cbn [result events].
  exists (run_nativeQueue w), (run_jsQueue w), (run_holder a w).
  exists (run_instance cxxModules a w). eexists.
  split; [done |]. split; [reflexivity |].
  split; [intros H; by apply (run_queues_differ w) |].
  split; [done |]. split; [done |]. split; [apply run_table_length |].
  split; [| done].
  eapply Forall_impl; [apply run_table_queues |].
  intros d Hd; cbn beta in Hd. split; [done |].
  rewrite Hd. intros H; by apply (run_queues_differ w).
Qed.

(** ** Beyond the claims: the store on every run, two calls, the providers *)

Lemma ends_in_bind {A B : Type} (m : M A) (k : A -> M B) w
    (QV1 : A -> World -> Prop) (QV : B -> World -> Prop) (QX : World -> Prop) :
  ends_in (m w) QV1 QX ->
  (forall a w1, QV1 a w1 -> ends_in (k a w1) QV QX) ->
  ends_in (bind m k w) QV QX.
Proof.
  unfold ends_in, bind. intros Hm Hk.
  destruct (result (m w)) as [a|site| |]; simpl; try exact Hm.
  exact (Hk _ _ Hm).
Qed.

Lemma ends_in_noexcept {A : Type} (m : M A) w
    (QV : A -> World -> Prop) (QX : World -> Prop) :
  ends_in (m w) QV QX -> ends_in (noexcept m w) QV QX.
Proof.
  unfold ends_in, noexcept. intros H.
  destruct (result (m w)) as [a|site| |] eqn:E; simpl; rewrite ?E; exact H.
Qed.

(** Each call of the function either has its effect and returns, or returns
    nothing and leaves the store as it found it. *)
Ltac one_call :=
  unfold ends_in, bind, call, raise, ret, emit, alloc, undefined;
  repeat match goal with |- context [throws ?e ?s] => destruct (throws e s) end;
  simpl; auto.

Lemma ends_in_call env site w (QX : World -> Prop) :
  QX w -> ends_in (call env site w) (fun _ w' => w' = w) QX.
Proof. intros H. one_call. Qed.

Lemma ends_in_emit e w (QX : World -> Prop) :
  ends_in (emit e w) (fun _ w' => w' = w) QX.
Proof. one_call. Qed.

Lemma ends_in_MakeJSQueueThread env site w (QX : World -> Prop) :
  QX w ->
  ends_in (MakeJSQueueThread env site w)
    (fun q w' => q = QueueObj (next_obj w)
                 /\ w' = MkWorld (S (next_obj w)) (heap w)) QX.
Proof. intros H. unfold MakeJSQueueThread. one_call. Qed.

Lemma ends_in_make_holder env p q a3 a4 w (QX : World -> Prop) :
  QX w ->
  ends_in (make_shared_ChakraRuntimeHolder env p q a3 a4 w)
    (fun h w' => h = MkChakraRuntimeHolder p q a3 a4 /\ w' = w) QX.
Proof. intros H. unfold make_shared_ChakraRuntimeHolder. one_call. Qed.

Lemma ends_in_set_holder a s h w (QX : World -> Prop) :
  heap w !! a = Some s ->
  ends_in (set_jsiRuntimeHolder (Some a) h w)
    (fun _ w' =>
       w' = MkWorld (next_obj w)
              (<[a := MkDevSettings (Some h) (platformName s) (otherSettings s)]>
                 (heap w))) QX.
Proof. intros Hs. unfold ends_in, set_jsiRuntimeHolder. by rewrite Hs. Qed.

Lemma ends_in_set_platformName env a s name w (QX : World -> Prop) :
  heap w !! a = Some s -> QX w ->
  ends_in (set_platformName env (Some a) name w)
    (fun _ w' =>
       w' = MkWorld (next_obj w)
              (<[a := MkDevSettings (jsiRuntimeHolder s) name (otherSettings s)]>
                 (heap w))) QX.
Proof.
  intros Hs H. unfold set_platformName, ends_in, bind, call, raise, ret.
  destruct (throws env SitePlatformName); simpl; [done |]. by rewrite Hs.
Qed.

Lemma ends_in_emit_all es w (QX : World -> Prop) :
  ends_in (emit_all es w) (fun _ w' => w' = w) QX.
Proof.
  induction es as [|e es IH]; cbn [emit_all]; [done |].
  eapply ends_in_bind; [apply ends_in_emit |]. by intros _ ? ->.
Qed.

Lemma ends_in_make_module_list env q w (QX : World -> Prop) :
  QX w ->
  ends_in (make_module_list env q w)
    (fun l w' => l = builtin_modules q /\ w' = w) QX.
Proof.
  intros H. unfold make_module_list.
  eapply ends_in_bind; [by apply ends_in_call |]. intros _ ? ->.
  eapply ends_in_bind; [apply ends_in_emit_all |]. by intros _ ? ->.
Qed.

Lemma ends_in_emplace_loop env cxxModules (QX : World -> Prop) :
  forall i q acc w,
    QX w ->
    ends_in (emplace_loop env i cxxModules q acc w)
      (fun l w' => l = acc ++ (extra_descriptor q <$> cxxModules) /\ w' = w) QX.
Proof.
  induction cxxModules as [|t rest IH]; intros i q acc w H;
    cbn [emplace_loop fmap list_fmap].
  - unfold ends_in; simpl. by rewrite app_nil_r.
  - eapply ends_in_bind; [by apply ends_in_call |]. intros _ ? ->.
    eapply ends_in_bind; [apply ends_in_emit |]. intros _ ? ->.
    replace (acc ++ extra_descriptor q t :: (extra_descriptor q <$> rest))
      with ((acc ++ [extra_descriptor q t]) ++ (extra_descriptor q <$> rest))
      by (by rewrite <- (assoc_L (++))).
    by apply IH.
Qed.

Lemma ends_in_make_callback env w (QX : World -> Prop) :
  QX w ->
  ends_in (make_unique_TestInstanceCallback env w)
    (fun c w' => c = MkTestInstanceCallback (next_obj w)
                 /\ w' = MkWorld (S (next_obj w)) (heap w)) QX.
Proof. intros H. unfold make_unique_TestInstanceCallback. one_call. Qed.

Lemma ends_in_CreateReactInstance env base table a3 cb jsq nq a s w
    (QX : World -> Prop) :
  heap w !! a = Some s -> QX w ->
  ends_in (CreateReactInstance env base table a3 cb jsq nq (Some a) w)
    (fun i w' => i = MkInstanceWrapper base table a3 cb jsq nq (Some a) /\ w' = w)
    QX.
Proof.
  intros Hs H. unfold CreateReactInstance, ends_in, bind, call, raise, ret.
  destruct (throws env SiteCreateInstance); simpl; [done |]. by rewrite Hs.
Qed.

Lemma ends_in_loadBundle env inst bundle w (QX : World -> Prop) :
  QX w -> ends_in (loadBundle env inst bundle w) (fun _ w' => w' = w) QX.
Proof. intros H. unfold loadBundle. one_call. Qed.

Lemma ends_in_new_DesktopTestInstance env inst w (QX : World -> Prop) :
  QX w ->
  ends_in (new_DesktopTestInstance env inst w)
    (fun h w' => h = Some (DesktopTestInstance inst) /\ w' = w) QX.
Proof. intros H. unfold new_DesktopTestInstance. one_call. Qed.

Lemma store_reached_start a s w : store_reached a s w w.
Proof. by left. Qed.

(** The body of [GetInstance] on settings that exist, whatever throws. *)
Lemma GetInstance_body_store env jsBundleFile cxxModules a s w :
  heap w !! a = Some s ->
  ends_in (GetInstance_body env jsBundleFile cxxModules (Some a) w)
    (fun h w' => h = Some (DesktopTestInstance (run_instance cxxModules a w))
                 /\ w' = run_final a s w)
    (store_reached a s w).
Proof.
  intros Hs. unfold GetInstance_body.
  eapply ends_in_bind;
    [apply ends_in_MakeJSQueueThread, store_reached_start |].
  intros nq ? [-> ->].
  eapply ends_in_bind; [apply ends_in_MakeJSQueueThread; by left |].
  intros jq ? [-> ->]. cbn [next_obj heap].
  eapply ends_in_bind; [apply ends_in_make_holder; by left |].
  intros h ? [-> ->].
  eapply ends_in_bind; [by eapply ends_in_set_holder |].
  intros _ ? ->. cbn [next_obj heap].
  assert (Hmid : store_reached a s w
            (MkWorld (S (S (next_obj w)))
               (<[a := MkDevSettings (Some (run_holder a w)) (platformName s)
                         (otherSettings s)]> (heap w))))
    by (right; by left).
  eapply ends_in_bind; [by apply ends_in_make_module_list |].
  intros l ? [-> ->].
  eapply ends_in_bind; [by apply ends_in_emplace_loop |].
  intros l ? [-> ->].
  eapply ends_in_bind;
    [eapply ends_in_set_platformName; [apply lookup_insert_eq | exact Hmid] |].
  intros _ ? ->. cbn [next_obj heap jsiRuntimeHolder otherSettings].
  rewrite insert_insert_eq.
  eapply ends_in_bind; [apply ends_in_make_callback; right; by right |].
  intros cb ? [-> ->]. cbn [next_obj heap].
  assert (Hend : store_reached a s w (run_final a s w))
    by (right; by right).
  eapply ends_in_bind;
    [eapply ends_in_CreateReactInstance; [apply lookup_insert_eq | exact Hend] |].
  intros inst ? [-> ->].
  eapply ends_in_bind; [by apply ends_in_loadBundle |].
  intros _ ? ->.
  by apply ends_in_new_DesktopTestInstance.
Qed.

(** X2: on settings that exist, however a run of [GetInstance] ends
    (returning, or terminated by a call that throws), the store it leaves
    holds the caller's settings in one of three states: untouched, with the
    new holder stored, or with the holder and "windesktop" stored.  So no
    other settings object is ever changed, added or removed, and the members
    of the caller's settings other than the two written are never
    changed. *)
Theorem X2_store_after_any_run env jsBundleFile cxxModules a s w :
  heap w !! a = Some s ->
  let r := GetInstance env jsBundleFile cxxModules (Some a) w in
  let holder := MkChakraRuntimeHolder (Some a) (QueueObj (S (next_obj w))) None None in
  (heap (final r) = heap w
   \/ heap (final r)
      = <[a := MkDevSettings (Some holder) (platformName s) (otherSettings s)]>
          (heap w)
   \/ heap (final r)
      = <[a := MkDevSettings (Some holder) "windesktop" (otherSettings s)]>
          (heap w))
  /\ (forall b, b <> a -> heap (final r) !! b = heap w !! b)
  /\ (exists s', heap (final r) !! a = Some s'
                 /\ otherSettings s' = otherSettings s).
Proof.
  intros Hs r holder.
  assert (Hheap : store_reached a s w (final r)).
  { pose proof (ends_in_noexcept _ w _ _
                  (GetInstance_body_store env jsBundleFile cxxModules a s w Hs))
      as H.
    fold (GetInstance env jsBundleFile cxxModules (Some a)) in H. fold r in H.
    unfold ends_in in H.
    destruct (result r) as [h|site| |]; [| exact H ..].
    destruct H as [_ ->]. right; by right. }
  split; [exact Hheap |]. split.
  - intros b Hb. destruct Hheap as [-> | [-> | ->]];
      [done | by rewrite lookup_insert_ne ..].
  - destruct Hheap as [-> | [-> | ->]];
      [by exists s | rewrite lookup_insert_eq; by eexists ..].
Qed.

(** X4: a second call of [GetInstance] on the same settings object, after a
    first call that ran to its end, makes queues of its own: the four queues
    of the two instances are four different objects.  Both instances hold
    the pointer to the one settings object, and that object now holds the
    holder of the second call, bound to the second instance's script queue
    and not to the first's; its platform name is "windesktop" and its other
    members are still as the caller gave them before the first call. *)
Theorem X4_second_call_on_same_settings
    env1 env2 bundle1 bundle2 cxxModules1 cxxModules2 a s w :
  no_throw env1 ->
  no_throw env2 ->
  heap w !! a = Some s ->
  let r1 := GetInstance env1 bundle1 cxxModules1 (Some a) w in
  let r2 := GetInstance env2 bundle2 cxxModules2 (Some a) (final r1) in
  exists inst1 inst2 s2 holder2,
    result r1 = Val (Some (DesktopTestInstance inst1))
    /\ result r2 = Val (Some (DesktopTestInstance inst2))
    /\ NoDup [ inst_nativeQueue inst1; inst_jsQueue inst1;
               inst_nativeQueue inst2; inst_jsQueue inst2 ]
    /\ inst_devSettings inst1 = inst_devSettings inst2
    /\ settings_at (final r2) (inst_devSettings inst1) = Some s2
    /\ jsiRuntimeHolder s2 = Some holder2
    /\ holder_jsQueue holder2 = inst_jsQueue inst2
    /\ holder_jsQueue holder2 <> inst_jsQueue inst1
    /\ platformName s2 = "windesktop"
    /\ otherSettings s2 = otherSettings s.
Proof.
  intros Hnt1 Hnt2 Hs r1 r2. subst r2 r1.
  rewrite (GetInstance_no_throw _ _ _ _ _ _ Hnt1 Hs). cbn [final].
  assert (Hs2 : heap (run_final a s w) !! a = Some (run_settings a s w))
    by apply lookup_insert_eq.
  rewrite (GetInstance_no_throw _ _ _ _ _ _ Hnt2 Hs2).
  exists (run_instance cxxModules1 a w),
         (run_instance cxxModules2 a (run_final a s w)),
         (run_settings a (run_settings a s w) (run_final a s w)),
         (run_holder a (run_final a s w)).
  cbn [result final run_instance inst_devSettings inst_jsQueue inst_nativeQueue
       settings_at run_final heap].
  rewrite lookup_insert_eq.
  split; [done |]. split; [done |]. split; [| split; [done |]].
  - unfold run_nativeQueue, run_jsQueue; cbn [next_obj].
    rewrite !NoDup_cons, !elem_of_cons, !elem_of_nil.
    repeat split; try apply NoDup_nil_2;
      intros H; repeat destruct H as [H|H]; try done; injection H; lia.
  - repeat split; try done.
    unfold run_holder, run_jsQueue; cbn. intros [=]. lia.
Qed.

(** X5: in the table a run of [GetInstance] hands over, the providers of the
    seven built-ins build, in order, the storage module on
    "ReactNativeAsyncStorage", the web socket module, the networking module,
    the timing module on the instance's native queue (the queue the lambda
    captured), and the three test modules; the provider of each extra is the
    caller's provider, building what the caller's builds. *)
Theorem X5_what_the_providers_build env jsBundleFile cxxModules a s w :
  no_throw env ->
  heap w !! a = Some s ->
  let r := GetInstance env jsBundleFile cxxModules (Some a) w in
  exists inst,
    result r = Val (Some (DesktopTestInstance inst))
    /\ (fun d => descriptor_provider d tt) <$> take 7 (inst_cxxModules inst)
       = [ AsyncStorageModule "ReactNativeAsyncStorage"; WebSocketModule;
           NetworkingModule; TimingModule (inst_nativeQueue inst);
           TestAppStateModule; TestUIManager; TestDeviceInfoModule ]
    /\ descriptor_provider <$> drop 7 (inst_cxxModules inst)
       = snd <$> cxxModules.
Proof.
  intros Hnt Hs r. subst r. rewrite (GetInstance_no_throw _ _ _ _ _ _ Hnt Hs).
  exists (run_instance cxxModules a w).
  cbn [result run_instance inst_cxxModules inst_nativeQueue]. unfold run_table.
  split; [done |]. split.
  - by rewrite take_app_length'.
  - rewrite drop_app_length' by done.
    induction cxxModules as [|t rest IH]; [done |]. cbn. by f_equal.
Qed.

Lemma run_events_prelude env jsBundleFile cxxModules a s w :
  run_events env jsBundleFile cxxModules a s w
  = run_prelude cxxModules a w
      ++ [ EvCreateReactInstance (run_instance cxxModules a w) (run_settings a s w);
           EvLoadBundle (run_instance cxxModules a w) jsBundleFile
             (bundle_loads env jsBundleFile);
           EvNewDesktopTestInstance (run_instance cxxModules a w) ].
Proof. unfold run_events, run_prelude. by rewrite <- !(assoc_L (++)). Qed.

Lemma run_prelude_no_instance_event cxxModules a w :
  Forall (fun e => is_instance_event e = false) (run_prelude cxxModules a w).
Proof.
  unfold run_prelude.
  repeat first
    [ apply Forall_app; split
    | by apply Forall_fmap, Forall_true
    | by repeat constructor ].
Qed.

(** Where the last three calls stand in the log of a full run. *)
Lemma run_events_instance_event env jsBundleFile cxxModules a s w i e :
  run_events env jsBundleFile cxxModules a s w !! i = Some e ->
  is_instance_event e = true ->
  (i = length (run_prelude cxxModules a w)
   /\ e = EvCreateReactInstance (run_instance cxxModules a w) (run_settings a s w))
  \/ (i = S (length (run_prelude cxxModules a w))
      /\ e = EvLoadBundle (run_instance cxxModules a w) jsBundleFile
               (bundle_loads env jsBundleFile))
  \/ (i = S (S (length (run_prelude cxxModules a w)))
      /\ e = EvNewDesktopTestInstance (run_instance cxxModules a w)).
Proof.
  rewrite run_events_prelude. intros Hi He.
  apply lookup_app_Some in Hi as [Hi|[Hlen Hi]].
  - pose proof (run_prelude_no_instance_event cxxModules a w) as F.
    rewrite Forall_lookup in F. specialize (F _ _ Hi). simpl in F. congruence.
  - destruct (i - length (run_prelude cxxModules a w)) as [|[|[|k]]] eqn:Hk;
      simpl in Hi; [| | | done]; injection Hi as <-.
    + left. split; [lia | done].
    + right; left. split; [lia | done].
    + right; right. split; [lia | done].
Qed.

(** The log of any run on settings that exist is an initial part of the log
    of the full run. *)
Lemma GetInstance_events_prefix env jsBundleFile cxxModules a s w :
  heap w !! a = Some s ->
  events (GetInstance env jsBundleFile cxxModules (Some a) w)
    `prefix_of` run_events env jsBundleFile cxxModules a s w.
Proof.
  intros Hs.
  destruct (GetInstance_cases env jsBundleFile cxxModules a s w Hs)
    as [(_ & _ & He)|(_ & Hp & _)]; [by rewrite He | exact Hp].
Qed.

Lemma prefix_lookup_earlier {X : Type} (l1 l2 : list X) i j x y :
  l1 `prefix_of` l2 -> l1 !! i = Some y -> j <= i -> l2 !! j = Some x ->
  l1 !! j = Some x.
Proof.
  intros [k ->] Hi Hj Hx. apply lookup_lt_Some in Hi.
  by rewrite lookup_app_l in Hx by lia.
Qed.

(** X6: in every run of [GetInstance] on settings that exist, cut short or
    not, [CreateReactInstance] is never called before everything is
    prepared: a call of it is given the whole table (the seven built-ins and
    all the extras), the empty base path, a null third argument and the
    caller's settings pointer, and finds the settings with the holder on the
    instance's script queue, the name "windesktop" and the other members as
    the caller gave them.  [loadBundle] is never called but with the
    caller's bundle name and on an instance that [CreateReactInstance] has
    returned, and no handle is made but of an instance whose bundle load has
    been issued. *)
Theorem X6_nothing_before_it_is_prepared env jsBundleFile cxxModules a s w :
  heap w !! a = Some s ->
  let r := GetInstance env jsBundleFile cxxModules (Some a) w in
  (forall inst seen,
     EvCreateReactInstance inst seen ∈ events r ->
     inst_cxxModules inst
     = builtin_modules (inst_nativeQueue inst)
         ++ ((fun t => (t.1, t.2, inst_nativeQueue inst)) <$> cxxModules)
     /\ inst_jsBundleBasePath inst = ""
     /\ inst_arg3 inst = None
     /\ inst_devSettings inst = Some a
     /\ (exists holder, jsiRuntimeHolder seen = Some holder
                        /\ holder_jsQueue holder = inst_jsQueue inst)
     /\ platformName seen = "windesktop"
     /\ otherSettings seen = otherSettings s)
  /\ (forall inst bundle loads,
        EvLoadBundle inst bundle loads ∈ events r ->
        bundle = jsBundleFile
        /\ exists seen, EvCreateReactInstance inst seen ∈ events r)
  /\ (forall inst,
        EvNewDesktopTestInstance inst ∈ events r ->
        exists loads, EvLoadBundle inst jsBundleFile loads ∈ events r).
Proof.
  intros Hs r.
  pose proof (GetInstance_events_prefix env jsBundleFile cxxModules a s w Hs) as Hp.
  fold r in Hp.
  assert (Hfull : forall i e, events r !! i = Some e ->
            run_events env jsBundleFile cxxModules a s w !! i = Some e)
    by (intros i e Hi; by eapply prefix_lookup_Some).
  split; [| split].
  - intros inst seen [i Hi]%list_elem_of_lookup.
    destruct (run_events_instance_event _ _ _ _ _ _ _ _ (Hfull _ _ Hi) eq_refl)
      as [[_ He]|[[_ He]|[_ He]]]; [| discriminate He ..].
    injection He as -> ->.
    repeat split; try done. by exists (run_holder a w).
  - intros inst bundle loads [i Hi]%list_elem_of_lookup.
    destruct (run_events_instance_event _ _ _ _ _ _ _ _ (Hfull _ _ Hi) eq_refl)
      as [[_ He]|[[Hidx He]|[_ He]]]; [discriminate He | | discriminate He].
    injection He as -> -> _. split; [done |].
    exists (run_settings a s w). apply list_elem_of_lookup.
    exists (length (run_prelude cxxModules a w)).
    eapply (prefix_lookup_earlier _ _ i); [exact Hp | exact Hi | lia |].
    rewrite run_events_prelude. by rewrite list_lookup_middle.
  - intros inst [i Hi]%list_elem_of_lookup.
    destruct (run_events_instance_event _ _ _ _ _ _ _ _ (Hfull _ _ Hi) eq_refl)
      as [[_ He]|[[_ He]|[Hidx He]]]; [discriminate He .. |].
    injection He as ->.
    exists (bundle_loads env jsBundleFile). apply list_elem_of_lookup.
    exists (S (length (run_prelude cxxModules a w))).
    eapply (prefix_lookup_earlier _ _ i); [exact Hp | exact Hi | lia |].
    rewrite run_events_prelude.
    rewrite lookup_app_r by lia.
    by replace (S (length (run_prelude cxxModules a w))
                - length (run_prelude cxxModules a w)) with 1 by lia.
Qed.

End Bridge.

Arguments MkRun {Rest A} result final events.
Arguments result {Rest A} r.
Arguments final {Rest A} r.
Arguments events {Rest A} r.

(** ** The scenarios, run

    Each claim on a scenario of the specification: one settings object at
    address 0 of the store, its untouched members stood for by the number
    17, the two test modules named "AppState" and "DeviceInfo". *)

(** C1 on the scenario with the one extra module "Custom": eight entries, the
    eighth is "Custom" on the native queue. *)
Lemma C1_witness :
  let r := GetInstance "AppState" "DeviceInfo" env_quiet "main.bundle"
             custom_module (Some 0) (store0 17) in
  exists inst,
    result r = Val (Some (DesktopTestInstance inst))
    /\ length (inst_cxxModules inst) = 8
    /\ descriptor_name <$> inst_cxxModules inst
       = [ "AsyncLocalStorage"; "WebSocketModule"; "Networking"; "Timing";
           "AppState"; "UIManager"; "DeviceInfo"; "Custom" ]
    /\ Forall (fun d => descriptor_queue d = inst_nativeQueue inst)
         (inst_cxxModules inst).
Proof.
  destruct (C1_table_builtins_then_extras "AppState" "DeviceInfo" env_quiet
              "main.bundle" custom_module 0 (default_settings 17) (store0 17)
              env_quiet_no_throw (store0_settings 17))
    as (inst & q & Hr & Hq & Hlen & _ & Hnames & _ & Hqs).
  exists inst. rewrite Hq. auto.
Defined.

(** C2 as the claim states it fails: when the construction of the holder
    throws, [GetInstance] returns no handle; the process is terminated. *)
Lemma C2_counterexample :
  let r := GetInstance "AppState" "DeviceInfo" env_holder_throws "main.bundle"
             [] (Some 0) (store0 17) in
  heap (store0 17) !! 0 = Some (default_settings 17)
  /\ result r = Terminate
  /\ ~ (exists h, result r = Val h).
Proof.
  cbv zeta. split; [reflexivity |]. split; [reflexivity |].
  intros [h Hh]. discriminate Hh.
Qed.

(** C2 on the quiet environment: the call returns a handle that is not
    null; and on the environment in which the construction of the holder
    throws: the process is terminated. *)
Lemma C2_witness :
  let r := GetInstance "AppState" "DeviceInfo" env_quiet "main.bundle"
             [] (Some 0) (store0 17) in
  let r' := GetInstance "AppState" "DeviceInfo" env_holder_throws "main.bundle"
              custom_module (Some 0) (store0 17) in
  (exists inst, result r = Val (Some (DesktopTestInstance inst)))
  /\ (forall site, result r <> Throw site)
  /\ result r' = Terminate.
Proof.
  destruct (C2_returns_handle_or_terminates "AppState" "DeviceInfo" env_quiet
              "main.bundle" [] 0 (default_settings 17) (store0 17) (store0_settings 17))
    as (Hnot & _ & Hret & _).
  destruct (C2_returns_handle_or_terminates "AppState" "DeviceInfo"
              env_holder_throws "main.bundle" custom_module 0
              (default_settings 17) (store0 17) (store0_settings 17))
    as (_ & _ & _ & _ & Hterm & _).
  split; [exact (Hret env_quiet_no_throw) |]. split; [exact Hnot |].
  apply Hterm. exists SiteHolder. split; [| reflexivity].
  apply list_elem_of_lookup. exists 2. reflexivity.
Defined.

(** C3 on the scenario with no extra module. *)
Lemma C3_witness :
  exists inst,
    result (GetInstance "AppState" "DeviceInfo" env_quiet "main.bundle"
              [] (Some 0) (store0 17))
    = Val (Some (DesktopTestInstance inst))
    /\ length (inst_cxxModules inst) = 7
    /\ descriptor_name <$> inst_cxxModules inst
       = [ "AsyncLocalStorage"; "WebSocketModule"; "Networking"; "Timing";
           "AppState"; "UIManager"; "DeviceInfo" ].
Proof.
  destruct (C3_empty_extras_builtins_only "AppState" "DeviceInfo" env_quiet
              "main.bundle" 0 (default_settings 17) (store0 17)
              env_quiet_no_throw (store0_settings 17))
    as (inst & Hr & _ & Hlen & Hnames).
  exists inst. auto.
Defined.

(** C4 as the claim states it fails: in the run with no extra module the
    last tuple of the table is made (event 10) before the platform name is
    stored (event 11), so the log is not in the order of the specification's
    steps, which has the platform name stored in step 2, before the table of
    step 3. *)
Lemma C4_counterexample :
  let r := GetInstance "AppState" "DeviceInfo" env_quiet "main.bundle"
             [] (Some 0) (store0 17) in
  (exists d, events r !! 10 = Some (EvMakeTuple d))
  /\ events r !! 11 = Some (EvSetPlatformName 0 "windesktop")
  /\ ~ in_step_order spec_step (events r).
Proof.
  cbv zeta. split; [eexists; reflexivity |]. split; [reflexivity |].
  intros H.
  specialize (H 10 11 _ _ ltac:(lia) eq_refl eq_refl).
  cbn in H. lia.
Qed.

(** C4 on the scenario with one extra module: the sixteen calls by step. *)
Lemma C4_witness :
  let r := GetInstance "AppState" "DeviceInfo" env_quiet "main.bundle"
             custom_module (Some 0) (store0 17) in
  in_step_order code_step (events r)
  /\ code_step <$> events r
     = [1; 1; 2; 2; 3; 3; 3; 3; 3; 3; 3; 3; 4; 5; 5; 6; 7].
Proof.
  destruct (C4_calls_in_code_order "AppState" "DeviceInfo" env_quiet
              "main.bundle" custom_module 0 (default_settings 17) (store0 17)
              (store0_settings 17))
    as [Horder Hsteps].
  split; [exact Horder | exact (Hsteps env_quiet_no_throw)].
Defined.

(** C5 on the scenario with one extra module: at the return the settings
    object holds the holder and the name "windesktop", its other members
    unchanged. *)
Lemma C5_witness :
  let r := GetInstance "AppState" "DeviceInfo" env_quiet "main.bundle"
             custom_module (Some 0) (store0 17) in
  exists holder,
    filter (fun e => is_settings_write e = true) (events r)
    = [EvSetJsiRuntimeHolder 0 holder; EvSetPlatformName 0 "windesktop"]
    /\ heap (final r) = {[ 0 := MkDevSettings (Some holder) "windesktop" 17 ]}.
Proof.
  destruct (C5_settings_written_twice_then_moved "AppState" "DeviceInfo"
              env_quiet "main.bundle" custom_module 0 (default_settings 17) (store0 17)
              (store0_settings 17))
    as (holder & _ & Hrun).
  destruct (Hrun env_quiet_no_throw)
    as (inst & seen & pre & post & He & Hpre & Hpost & _ & _ & Hseen & Hheap).
  exists holder. cbv zeta. split.
  - rewrite He, filter_app, filter_cons_False, Hpre, Hpost by done.
    reflexivity.
  - rewrite Hheap, Hseen. apply insert_singleton_eq.
Defined.

(** C6 on the scenario with two extra modules both named "Timing": nine
    entries, the built-in "Timing" still the fourth, and reading by name
    gives the second of the extras. *)
Lemma C6_witness :
  let r := GetInstance "AppState" "DeviceInfo" env_quiet "main.bundle"
             timing_twice (Some 0) (store0 17) in
  exists inst,
    result r = Val (Some (DesktopTestInstance inst))
    /\ length (inst_cxxModules inst) = 9
    /\ descriptor_name <$> (inst_cxxModules inst !! 3) = Some "Timing"
    /\ (fun d => descriptor_provider d tt)
         <$> (index_by_name (inst_cxxModules inst) !! "Timing")
       = Some (ExternalModule "second").
Proof.
  destruct (C6_reused_name_last_entry_wins "AppState" "DeviceInfo" env_quiet
              "main.bundle" [("Timing", fun _ => ExternalModule "first")]
              "Timing" (fun _ => ExternalModule "second") [] 0
              (default_settings 17) (store0 17))
    as (inst & Hr & Htab & _ & _ & _ & Hidx);
    [ set_solver | set_solver | exact env_quiet_no_throw | exact (store0_settings 17) | ].
  exists inst. split; [exact Hr |]. split; [| split].
  - rewrite Htab. reflexivity.
  - rewrite Htab. reflexivity.
  - unfold Descriptor in *. rewrite Hidx. reflexivity.
Defined.

(** C7 on a bundle that will not load: the call returns, [loadBundle] is
    called with that name between the making of the instance and of the
    handle, and the handle is the one the run on "main.bundle" returns. *)
Lemma C7_witness :
  let r := GetInstance "AppState" "DeviceInfo" env_bundle_missing
             "missing.bundle" [] (Some 0) (store0 17) in
  exists inst seen pre,
    result r = Val (Some (DesktopTestInstance inst))
    /\ events r
       = pre ++ [ EvCreateReactInstance inst seen;
                  EvLoadBundle inst "missing.bundle" false;
                  EvNewDesktopTestInstance inst ]
    /\ Forall (fun e => is_load_bundle e = false) pre
    /\ result (GetInstance "AppState" "DeviceInfo" env_quiet "main.bundle"
                 [] (Some 0) (store0 17))
       = Val (Some (DesktopTestInstance inst)).
Proof.
  destruct (C7_loadBundle_once_fire_and_forget "AppState" "DeviceInfo"
              env_bundle_missing "missing.bundle" [] 0 (default_settings 17) (store0 17))
    as (inst & seen & pre & Hr & He & Hpre & Hsame);
    [ exact env_bundle_missing_no_throw | exact (store0_settings 17) | ].
  exists inst, seen, pre. split; [exact Hr |]. split; [exact He |].
  split; [exact Hpre |].
  rewrite <- (Hsame env_quiet "main.bundle" _ eq_refl). reflexivity.
Defined.

(** C8 on the scenario with no extra module: the holder is made third, on
    the queue made second. *)
Lemma C8_witness :
  let r := GetInstance "AppState" "DeviceInfo" env_quiet "main.bundle"
             [] (Some 0) (store0 17) in
  exists nativeQueue jsQueue holder,
    events r !! 0 = Some (EvMakeJSQueueThread nativeQueue)
    /\ events r !! 1 = Some (EvMakeJSQueueThread jsQueue)
    /\ events r !! 2 = Some (EvNewChakraRuntimeHolder holder)
    /\ events r !! 3 = Some (EvSetJsiRuntimeHolder 0 holder)
    /\ holder_jsQueue holder = jsQueue
    /\ jsQueue <> nativeQueue.
Proof.
  destruct (C8_holder_on_script_queue "AppState" "DeviceInfo" env_quiet
              "main.bundle" [] 0 (default_settings 17) (store0 17)
              env_quiet_no_throw (store0_settings 17))
    as (nq & jq & holder & inst & seen & mid & post
        & _ & He & Hq & Hne & _).
  exists nq, jq, holder. cbv zeta. rewrite He.
  repeat split; [exact Hq | exact Hne].
Defined.

(** C9 on the scenario with no extra module: the callback handed to the
    instance is an object made during the call, and its [onBatchComplete]
    leaves the store as the call left it. *)
Lemma C9_witness :
  let r := GetInstance "AppState" "DeviceInfo" env_quiet "main.bundle"
             [] (Some 0) (store0 17) in
  exists inst,
    result r = Val (Some (DesktopTestInstance inst))
    /\ next_obj (store0 17) <= callback_obj (inst_callback inst) < next_obj (final r)
    /\ onBatchComplete (inst_callback inst) (final r)
       = MkRun (Val tt) (final r) [].
Proof.
  destruct (C9_fresh_callback_does_nothing "AppState" "DeviceInfo" env_quiet
              "main.bundle" [] 0 (default_settings 17) (store0 17)
              env_quiet_no_throw (store0_settings 17))
    as (inst & seen & Hr & _ & _ & Hfresh & _ & Hnoop).
  exists inst. split; [exact Hr |]. split; [exact Hfresh |].
  apply Hnoop.
Defined.

(** C10 on the scenario with the one extra module "Custom": two queues,
    and all eight descriptors on the native one. *)
Lemma C10_witness :
  let r := GetInstance "AppState" "DeviceInfo" env_quiet "main.bundle"
             custom_module (Some 0) (store0 17) in
  exists inst,
    result r = Val (Some (DesktopTestInstance inst))
    /\ inst_nativeQueue inst <> inst_jsQueue inst
    /\ length (inst_cxxModules inst) = 8
    /\ Forall (fun d => descriptor_queue d = inst_nativeQueue inst
                        /\ descriptor_queue d <> inst_jsQueue inst)
         (inst_cxxModules inst).
Proof.
  destruct (C10_modules_native_holder_script "AppState" "DeviceInfo" env_quiet
              "main.bundle" custom_module 0 (default_settings 17) (store0 17)
              env_quiet_no_throw (store0_settings 17))
    as (nq & jq & holder & inst & rest
        & Hr & _ & Hne & Hnq & Hjq & Hlen & Hall & _).
  exists inst. rewrite Hnq, Hjq. auto.
Defined.

(** X2 on the run in which the construction of the holder throws: the other
    members of the settings are still the 17 they were, and there is still
    no settings object at address 1. *)
Lemma X2_witness :
  let r := GetInstance "AppState" "DeviceInfo" env_holder_throws "main.bundle"
             custom_module (Some 0) (store0 17) in
  (exists s', heap (final r) !! 0 = Some s' /\ otherSettings s' = 17)
  /\ heap (final r) !! 1 = None.
Proof.
  destruct (X2_store_after_any_run "AppState" "DeviceInfo" env_holder_throws
              "main.bundle" custom_module 0 (default_settings 17) (store0 17)
              (store0_settings 17))
    as (_ & Hframe & Hrest).
  split; [exact Hrest |].
  rewrite (Hframe 1) by lia. reflexivity.
Defined.

(** X4 on two calls in a row, the second with the extra module "Custom" and
    a bundle that will not load. *)
Lemma X4_witness :
  let r1 := GetInstance "AppState" "DeviceInfo" env_quiet "main.bundle"
              [] (Some 0) (store0 17) in
  let r2 := GetInstance "AppState" "DeviceInfo" env_bundle_missing
              "missing.bundle" custom_module (Some 0) (final r1) in
  exists inst1 inst2 s2 holder2,
    result r1 = Val (Some (DesktopTestInstance inst1))
    /\ result r2 = Val (Some (DesktopTestInstance inst2))
    /\ NoDup [ inst_nativeQueue inst1; inst_jsQueue inst1;
               inst_nativeQueue inst2; inst_jsQueue inst2 ]
    /\ settings_at (final r2) (inst_devSettings inst1) = Some s2
    /\ jsiRuntimeHolder s2 = Some holder2
    /\ holder_jsQueue holder2 <> inst_jsQueue inst1
    /\ otherSettings s2 = 17.
Proof.
  destruct (X4_second_call_on_same_settings "AppState" "DeviceInfo"
              env_quiet env_bundle_missing "main.bundle" "missing.bundle"
              [] custom_module 0 (default_settings 17) (store0 17)
              env_quiet_no_throw env_bundle_missing_no_throw (store0_settings 17))
    as (inst1 & inst2 & s2 & holder2
        & Hr1 & Hr2 & Hnd & _ & Hs2 & Hh2 & _ & Hne & _ & Hother).
  exists inst1, inst2, s2, holder2. auto 10.
Defined.

(** X5 on the scenario with the one extra module "Custom". *)
Lemma X5_witness :
  let r := GetInstance "AppState" "DeviceInfo" env_quiet "main.bundle"
             custom_module (Some 0) (store0 17) in
  exists inst,
    result r = Val (Some (DesktopTestInstance inst))
    /\ (fun d => descriptor_provider d tt) <$> (inst_cxxModules inst !! 3)
       = Some (TimingModule (inst_nativeQueue inst))
    /\ (fun p => p tt) <$> (descriptor_provider <$> drop 7 (inst_cxxModules inst))
       = [ExternalModule "Custom"].
Proof.
  destruct (X5_what_the_providers_build "AppState" "DeviceInfo" env_quiet
              "main.bundle" custom_module 0 (default_settings 17) (store0 17)
              env_quiet_no_throw (store0_settings 17))
    as (inst & Hr & Hbuiltins & Hextras).
  exists inst. split; [exact Hr |]. split.
  - assert (H : ((fun d => descriptor_provider d tt)
                   <$> take 7 (inst_cxxModules inst)) !! 3
                = Some (TimingModule (inst_nativeQueue inst)))
      by (by rewrite Hbuiltins).
    rewrite list_lookup_fmap, lookup_take_lt in H by lia. exact H.
  - rewrite Hextras. reflexivity.
Defined.

(** X6 on the scenario with the one extra module "Custom": the instance is
    made of eight modules and of settings named "windesktop". *)
Lemma X6_witness :
  let r := GetInstance "AppState" "DeviceInfo" env_quiet "main.bundle"
             custom_module (Some 0) (store0 17) in
  (exists inst seen, EvCreateReactInstance inst seen ∈ events r)
  /\ (forall inst seen,
        EvCreateReactInstance inst seen ∈ events r ->
        length (inst_cxxModules inst) = 8 /\ platformName seen = "windesktop").
Proof.
  destruct (X6_nothing_before_it_is_prepared "AppState" "DeviceInfo" env_quiet
              "main.bundle" custom_module 0 (default_settings 17) (store0 17)
              (store0_settings 17))
    as (Hcreate & _ & _).
  split.
  - do 2 eexists. apply list_elem_of_lookup. exists 14. reflexivity.
  - intros inst seen Hin.
    destruct (Hcreate inst seen Hin) as (Htab & _ & _ & _ & _ & Hname & _).
    split; [by rewrite Htab | exact Hname].
Defined.
